(** * Daytona workspace adapter (composio/tools/env/daytona/workspace.py)

    A shallow embedding of the adapter: the module body (its imports and the
    [DAYTONA_INSTALLED] flag), the [Config] dataclass, and the three
    operations of [DaytonaWorkspace] ([__init__], [setup] with [_wait], and
    [teardown]).

    The adapter is a binding over a vendor SDK and a base class that live
    outside the file.  They are kept abstract: their types are the fields of
    the class [SdkTypes], their operations the fields of [SdkOps], and every
    call the adapter makes into them is recorded in a trace, so that what the
    adapter asks of the provider can be stated and proved. *)

From Stdlib Require Import ZArith Floats Uint63.
From stdpp Require Import gmap strings list fin_maps.

Local Open Scope Z_scope.

(** ** Types that come from outside the file *)

Class SdkTypes := {
  (** state of everything the adapter talks to: the provider's service, the
      internals of the base class *)
  World : Type;
  (** [daytona_sdk.Daytona] instances and the sandbox handles they return *)
  Client : Type;
  Sandbox : Type;
  (** instances of [daytona_sdk.CreateSandboxParams] *)
  Params : Type;
  (** [daytona_sdk.CodeLanguage], [SandboxTargetRegion], [SandboxResources] *)
  CodeLanguage : Type;
  SandboxTargetRegion : Type;
  SandboxResources : Type;
  (** the fields [Config] inherits from [WorkspaceConfigType] *)
  WorkspaceConfigType : Type;
  (** values the base class keeps in attributes of its own *)
  BaseVal : Type;
  (** exceptions raised by the vendor SDK or the base class *)
  Foreign : Type;
}.

(** Python's [float] is an IEEE 754 double: the kernel's binary64 floats.
    [float_60] is the literal [60.0] of line 110. *)
Definition pyfloat : Type := float.

Definition float_60 : pyfloat := 60%float.

(** ** The configuration dataclass (lines 29-64) *)

Module Config.
Record t `{SdkTypes} := {
  base : WorkspaceConfigType;
  api_key : option string;
  language : option CodeLanguage;
  id : option string;
  name : option string;
  image : option string;
  env_vars : option (gmap string string);
  labels : option (gmap string string);
  public : option bool;
  target : option SandboxTargetRegion;
  resources : option SandboxResources;
  auto_stop_interval : option Z;
}.
End Config.

(** ** The keyword arguments of the vendor's two parameter types

    What [DaytonaConfig(...)] and [CreateSandboxParams(...)] are called
    with.  The objects the calls return are the vendor's. *)

Module DaytonaConfig.
Record t := {
  api_key : option string;
  server_url : string;
}.
End DaytonaConfig.

Module CreateSandboxParams.
Record t `{SdkTypes} := {
  language : option CodeLanguage;
  id : option string;
  name : option string;
  image : option string;
  env_vars : option (gmap string string);
  labels : option (gmap string string);
  public : option bool;
  target : option SandboxTargetRegion;
  resources : option SandboxResources;
  auto_stop_interval : option Z;
}.
End CreateSandboxParams.

(** ** Exceptions, values, calls *)

Section Data.
Context `{SdkTypes}.

Inductive exn :=
| ModuleNotFoundError (module : string)
| ImportError (name module : string)
| NameError (name : string)
| AttributeError (attr : string)
| ValueError (arg : string)
| ComposioSDKError (msg : string)
| ForeignError (e : Foreign).

(** [ModuleNotFoundError] is a subclass of [ImportError]. *)
Definition is_ImportError (e : exn) : bool :=
  match e with
  | ModuleNotFoundError _ | ImportError _ _ => true
  | _ => false
  end.

Inductive result (A : Type) :=
| Ok (a : A)
| Raise (e : exn).
Global Arguments Ok {A} a.
Global Arguments Raise {A} e.

(** What an attribute of the workspace object can hold. *)
#[warnings="-register-all"]
Inductive Val :=
| VNone
| VStr (s : string)
| VList (l : list Val)
| VClient (c : Client)
| VParams (p : Params)
| VSandbox (s : Sandbox)
| VBase (v : BaseVal).

(** The calls the adapter makes into the vendor SDK and the base class. *)
Inductive Call :=
| CallBaseInit (config : Config.t)
| CallDaytona (config : DaytonaConfig.t)
| CallCreateSandboxParams (kwargs : CreateSandboxParams.t)
| CallCreate (c : Client) (params : Val)
| CallPreviewLink (s : Sandbox) (port : Z)
| CallWaitStart (s : Sandbox) (timeout : pyfloat)
| CallBaseTeardown
| CallRemove (c : Client) (sandbox : Val).

(** What a global name of the module is bound to. *)
Inductive GVal :=
| GBool (b : bool)
| GInt (n : Z)
| GSdk (name : string)    (* a name imported from daytona_sdk *)
| GHere                   (* a class of this repository *)
| GAny.                   (* typing.Any *)

(** The process: the outside world, os.environ, the attributes of the one
    workspace object ([self]), and the calls made so far. *)
Record State := {
  world : World;
  environ : gmap string string;
  self : gmap string Val;
  trace : list Call;
}.

(** ** A state and exception monad

    A computation takes the state and returns a value or the exception it
    raised, with the state at that point: what was mutated before a raise
    stays mutated. *)

Definition Py (S A : Type) : Type := S -> result A * S.

Definition ret {S A} (a : A) : Py S A := fun s => (Ok a, s).

Definition raise {S A} (e : exn) : Py S A := fun s => (Raise e, s).

Definition bind {S A B} (m : Py S A) (k : A -> Py S B) : Py S B :=
  fun s =>
    match m s with
    | (Ok a, s') => k a s'
    | (Raise e, s') => (Raise e, s')
    end.

(** [try: m except ImportError: h] *)
Definition try_except_ImportError {S A} (m h : Py S A) : Py S A :=
  fun s =>
    match m s with
    | (Ok a, s') => (Ok a, s')
    | (Raise e, s') => if is_ImportError e then h s' else (Raise e, s')
    end.
End Data.

Notation "x <- m ;; k" := (bind m (fun x => k))
  (at level 20, m at level 99, k at level 200, only parsing).
Notation "m ;; k" := (bind m (fun _ => k))
  (at level 100, k at level 200, only parsing).

(** ** The module body (lines 1-27 and the two class statements) *)

Section ModuleBody.
Context `{SdkTypes}.

(** An installation of daytona_sdk: [None] when the package cannot be
    imported, otherwise the names it exports. *)
Definition sdk_install : Type := option (gset string).

Definition set_global (n : string) (v : GVal) : Py (gmap string GVal) unit :=
  fun g => (Ok tt, <[n := v]> g).

(** Reading a global name; an unbound one is a [NameError]. *)
Definition get_global (n : string) : Py (gmap string GVal) GVal :=
  fun g =>
    match g !! n with
    | Some v => (Ok v, g)
    | None => (Raise (NameError n), g)
    end.

(** [from daytona_sdk import n1 as a1, n2 as a2, ...]: the module is
    imported first, then the names are fetched and bound one by one. *)
Fixpoint import_names (exports : gset string) (names : list (string * string))
  : Py (gmap string GVal) unit :=
  match names with
  | [] => ret tt
  | (n, a) :: rest =>
      if decide (n ∈ exports)
      then set_global a (GSdk n) ;; import_names exports rest
      else raise (ImportError n "daytona_sdk")
  end.

Definition from_daytona_sdk_import (sdk : sdk_install) (names : list (string * string))
  : Py (gmap string GVal) unit :=
  match sdk with
  | None => raise (ModuleNotFoundError "daytona_sdk")
  | Some exports => import_names exports names
  end.

Definition TOOLSERVER_PORT : Z := 8000.

Definition module_body (sdk : sdk_install) : Py (gmap string GVal) unit :=
  (* line 7 *)
  from_daytona_sdk_import sdk [("DaytonaConfig", "DaytonaConfig")] ;;
  (* lines 9-10 *)
  set_global "ComposioSDKError" GHere ;;
  set_global "RemoteWorkspace" GHere ;;
  set_global "WorkspaceConfigType" GHere ;;
  (* lines 13-25 *)
  try_except_ImportError
    (from_daytona_sdk_import sdk
       [("Daytona", "Daytona");
        ("CodeLanguage", "SandboxCodeLanguage");
        ("SandboxTargetRegion", "DaytonaSandboxTargetRegion");
        ("SandboxResources", "DaytonaSandboxResources");
        ("CreateSandboxParams", "CreateDaytonaSandboxParams")] ;;
     set_global "DAYTONA_INSTALLED" (GBool true))
    (set_global "Sandbox" GAny ;;
     set_global "DAYTONA_INSTALLED" (GBool false)) ;;
  (* line 27 *)
  set_global "TOOLSERVER_PORT" (GInt TOOLSERVER_PORT) ;;
  (* lines 29-64: the annotations of the class body are evaluated *)
  get_global "WorkspaceConfigType" ;;
  get_global "SandboxCodeLanguage" ;;
  get_global "DaytonaSandboxTargetRegion" ;;
  get_global "DaytonaSandboxResources" ;;
  set_global "Config" GHere ;;
  (* lines 66-118 *)
  get_global "RemoteWorkspace" ;;
  set_global "DaytonaWorkspace" GHere.

(** Importing the module: its globals, or the exception the body raised. *)
Definition import_workspace_module (sdk : sdk_install) : result (gmap string GVal) :=
  match module_body sdk ∅ with
  | (Ok _, g) => Ok g
  | (Raise e, _) => Raise e
  end.
End ModuleBody.

(** ** Operations that come from outside the file *)

Class SdkOps `{SdkTypes} := {
  (** [float(s)] on a [str]; [None] when it raises [ValueError] *)
  float_of_str : string -> option pyfloat;
  (** [Daytona(config=DaytonaConfig(api_key=..., server_url=...))]: the two
      constructors of the vendor, run one after the other with nothing of
      the adapter in between; and the client's [server_url] attribute *)
  Daytona_init : DaytonaConfig.t -> World -> result Client * World;
  Daytona_server_url : Client -> string;
  (** [CreateSandboxParams(language=..., ...)]: the vendor's constructor,
      which may reject what it is given *)
  CreateSandboxParams_init :
    CreateSandboxParams.t -> World -> result Params * World;
  (** [client.create(params=v)] and [client.remove(v)], for any value [v] *)
  Daytona_create : Client -> Val -> World -> result Sandbox * World;
  Daytona_remove : Client -> Val -> World -> result unit * World;
  (** the sandbox handle: its [id] attribute and the two methods used *)
  Sandbox_id : Sandbox -> string;
  Sandbox_get_preview_link : Sandbox -> Z -> World -> result string * World;
  Sandbox_wait_for_sandbox_start : Sandbox -> pyfloat -> World -> result unit * World;
  (** [RemoteWorkspace.__init__] and [RemoteWorkspace.teardown]: they see and
      may change the attributes of [self] *)
  RemoteWorkspace_init :
    Config.t -> gmap string Val * World -> result unit * (gmap string Val * World);
  RemoteWorkspace_teardown :
    gmap string Val * World -> result unit * (gmap string Val * World);
}.

(** ** The class DaytonaWorkspace (lines 66-118) *)

Section DaytonaWorkspace.
Context `{SdkOps}.

(** *** Attribute access on [self], and calls out of the file *)

Definition getattr (n : string) : Py State Val :=
  fun st =>
    match self st !! n with
    | Some v => (Ok v, st)
    | None => (Raise (AttributeError n), st)
    end.

Definition hasattr (n : string) : Py State bool :=
  fun st => (Ok (bool_decide (is_Some (self st !! n))), st).

Definition setattr (n : string) (v : Val) : Py State unit :=
  fun st =>
    (Ok tt, {| world := world st; environ := environ st;
               self := <[n := v]> (self st); trace := trace st |}).

Definition os_environ_get (n : string) : Py State (option string) :=
  fun st => (Ok (environ st !! n), st).

(** A call into the vendor SDK: logged, then run on the world. *)
Definition call {A} (c : Call) (f : World -> result A * World) : Py State A :=
  fun st =>
    let '(r, w) := f (world st) in
    (r, {| world := w; environ := environ st;
           self := self st; trace := trace st ++ [c] |}).

(** A call of a base-class method on [self]. *)
Definition super_call (c : Call)
    (f : gmap string Val * World -> result unit * (gmap string Val * World))
  : Py State unit :=
  fun st =>
    let '(r, (a, w)) := f (self st, world st) in
    (r, {| world := w; environ := environ st;
           self := a; trace := trace st ++ [c] |}).

(** Reading a global of the module from inside a method. *)
Definition global (g : gmap string GVal) (n : string) : Py State GVal :=
  match g !! n with
  | Some v => ret v
  | None => raise (NameError n)
  end.

Definition truthy (v : GVal) : bool :=
  match v with
  | GBool b => b
  | GInt n => negb (Z.eqb n 0)
  | _ => true
  end.

(** *** [__init__] (lines 69-95) *)

Definition missing_dependency_message : string :=
  "`daytona` is required to use daytona workspace, " +:+
  "run `pip3 install composio-core[daytona]` or " +:+
  "`pip3 install daytona-sdk` to install".

Definition __init__ (g : gmap string GVal) (config : Config.t) : Py State unit :=
  installed <- global g "DAYTONA_INSTALLED" ;;
  if negb (truthy installed)
  then raise (ComposioSDKError missing_dependency_message)
  else
    super_call (CallBaseInit config) (RemoteWorkspace_init config) ;;
    global g "Daytona" ;;
    global g "DaytonaConfig" ;;
    let daytona_config :=
      {| DaytonaConfig.api_key := Config.api_key config;
         DaytonaConfig.server_url := "https://app.daytona.io/api" |} in
    client <- call (CallDaytona daytona_config) (Daytona_init daytona_config) ;;
    setattr "daytona" (VClient client) ;;
    global g "CreateDaytonaSandboxParams" ;;
    let kwargs :=
      {| CreateSandboxParams.language := Config.language config;
         CreateSandboxParams.id := Config.id config;
         CreateSandboxParams.name := Config.name config;
         CreateSandboxParams.image := Config.image config;
         CreateSandboxParams.env_vars := Config.env_vars config;
         CreateSandboxParams.labels := Config.labels config;
         CreateSandboxParams.public := Config.public config;
         CreateSandboxParams.target := Config.target config;
         CreateSandboxParams.resources := Config.resources config;
         CreateSandboxParams.auto_stop_interval :=
           Config.auto_stop_interval config |} in
    params <- call (CallCreateSandboxParams kwargs)
                (CreateSandboxParams_init kwargs) ;;
    setattr "daytona_create_sandbox_params" (VParams params).

(** The expression [DaytonaWorkspace(config)] in a process that has yet to
    import the module: the module body runs, then [__init__] on a fresh
    object. *)
Definition new_DaytonaWorkspace (sdk : sdk_install) (config : Config.t)
  : Py State unit :=
  match import_workspace_module sdk with
  | Raise e => raise e
  | Ok g =>
      fun st =>
        __init__ g config
          {| world := world st; environ := environ st;
             self := ∅; trace := trace st |}
  end.

(** *** [_wait] (lines 107-111) *)

(** [float(os.environ.get("WORKSPACE_WAIT_TIMEOUT", 60.0))]: a variable
    that is set gives a [str], which [float] parses; one that is not gives
    the default, a [float] already, which [float] returns as it is. *)
Definition wait_timeout : Py State pyfloat :=
  v <- os_environ_get "WORKSPACE_WAIT_TIMEOUT" ;;
  match v with
  | Some s =>
      match float_of_str s with
      | Some f => ret f
      | None => raise (ValueError s)
      end
  | None => ret float_60
  end.

Definition _wait : Py State unit :=
  timeout <- wait_timeout ;;
  sandbox <- getattr "daytona_sandbox" ;;
  match sandbox with
  | VSandbox s =>
      call (CallWaitStart s timeout) (Sandbox_wait_for_sandbox_start s timeout)
  | _ => raise (AttributeError "wait_for_sandbox_start")
  end.

(** *** [setup] (lines 98-105) *)

Definition setup : Py State unit :=
  (* line 101 *)
  daytona <- getattr "daytona" ;;
  match daytona with
  | VClient c =>
      params <- getattr "daytona_create_sandbox_params" ;;
      sandbox <- call (CallCreate c params) (Daytona_create c params) ;;
      setattr "daytona_sandbox" (VSandbox sandbox) ;;
      (* line 102 *)
      daytona <- getattr "daytona" ;;
      match daytona with
      | VClient c =>
          sandbox <- getattr "daytona_sandbox" ;;
          match sandbox with
          | VSandbox s =>
              let url :=
                Daytona_server_url c +:+ "/toolbox/" +:+ Sandbox_id s +:+ "/toolbox" in
              setattr "url" (VStr url) ;;
              setattr "url" (VStr url) ;;
              (* line 103 *)
              sandbox <- getattr "daytona_sandbox" ;;
              match sandbox with
              | VSandbox s =>
                  host <- call (CallPreviewLink s TOOLSERVER_PORT)
                            (Sandbox_get_preview_link s TOOLSERVER_PORT) ;;
                  setattr "host" (VStr host) ;;
                  (* line 104 *)
                  setattr "ports" (VList []) ;;
                  (* line 105 *)
                  _wait
              | _ => raise (AttributeError "get_preview_link")
              end
          | _ => raise (AttributeError "id")
          end
      | _ => raise (AttributeError "server_url")
      end
  | _ => raise (AttributeError "create")
  end.

(** *** [teardown] (lines 113-118) *)

Definition is_not_None (v : Val) : bool :=
  match v with VNone => false | _ => true end.

Definition teardown : Py State unit :=
  (* line 116 *)
  super_call CallBaseTeardown RemoteWorkspace_teardown ;;
  (* line 117: [and] evaluates its right operand only if the left is true *)
  has_sandbox <- hasattr "sandbox" ;;
  cond <- (if has_sandbox
           then v <- getattr "daytona_sandbox" ;; ret (is_not_None v)
           else ret false) ;;
  if cond
  then
    (* line 118 *)
    daytona <- getattr "daytona" ;;
    match daytona with
    | VClient c =>
        sandbox <- getattr "daytona_sandbox" ;;
        call (CallRemove c sandbox) (Daytona_remove c sandbox)
    | _ => raise (AttributeError "remove")
    end
  else ret tt.
End DaytonaWorkspace.

(** ** A small concrete provider

    One instance of the two classes, used to run the adapter on concrete
    inputs: the world counts the sandboxes created, a client is the
    configuration it was built from, a parameter object is the identifier
    it was given, a sandbox handle is its identifier, and the parser of
    floats accepts decimal integer literals only. *)

Module Demo.
Definition types : SdkTypes :=
  {| World := nat;
     Client := DaytonaConfig.t;
     Sandbox := string;
     Params := option string;
     CodeLanguage := string;
     SandboxTargetRegion := string;
     SandboxResources := Z;
     WorkspaceConfigType := unit;
     BaseVal := bool;
     Foreign := string |}.

#[local] Existing Instance types.

Fixpoint digits (s : string) (acc : Z) : option Z :=
  match s with
  | EmptyString => Some acc
  | String c rest =>
      let d := Z.of_N (Ascii.N_of_ascii c) - 48 in
      if (0 <=? d) && (d <=? 9) then digits rest (10 * acc + d) else None
  end.

Definition parse_seconds (s : string) : option pyfloat :=
  match s with
  | EmptyString => None
  | _ => (fun n => PrimFloat.of_uint63 (Uint63.of_Z n)) <$> digits s 0
  end.

Definition ops : SdkOps :=
  {| float_of_str := parse_seconds;
     Daytona_init := fun config w => (Ok config, w);
     Daytona_server_url := DaytonaConfig.server_url;
     CreateSandboxParams_init := fun kwargs w =>
       (Ok (CreateSandboxParams.id kwargs), w);
     Daytona_create := fun _ params w =>
       match params with
       | VParams p => (Ok (default "sandbox" p), S w)
       | _ => (Raise (ForeignError "bad params"), w)
       end;
     Daytona_remove := fun _ _ w => (Ok tt, pred w);
     Sandbox_id := fun s => s;
     Sandbox_get_preview_link := fun s port w =>
       (Ok (if Z.eqb port 8000 then "https://8000-" +:+ s else s), w);
     Sandbox_wait_for_sandbox_start := fun _ _ w => (Ok tt, w);
     RemoteWorkspace_init := fun _ '(a, w) =>
       (Ok tt, (<["host" := VStr "localhost"]> (<["ports" := VList []]> a), w));
     RemoteWorkspace_teardown := fun '(a, w) => (Ok tt, (a, w)) |}.

#[local] Existing Instance ops.

(** A complete installation of the SDK: the names it exports. *)
Definition exports : gset string :=
  {[ "DaytonaConfig"; "Daytona"; "CodeLanguage"; "SandboxTargetRegion";
     "SandboxResources"; "CreateSandboxParams" ]}.

Definition sdk : sdk_install := Some exports.

(** An installation whose SDK has no [CreateSandboxParams]. *)
Definition old_exports : gset string :=
  {[ "DaytonaConfig"; "Daytona"; "CodeLanguage"; "SandboxTargetRegion";
     "SandboxResources" ]}.

Definition old_sdk : sdk_install := Some old_exports.

(** The attributes the base class leaves on a new object. *)
Definition base_attrs : gmap string Val :=
  <["host" := VStr "localhost"]> (<["ports" := VList []]> ∅).

Definition config : Config.t :=
  {| Config.base := tt;
     Config.api_key := Some "key";
     Config.language := Some "python";
     Config.id := Some "sb1";
     Config.name := None;
     Config.image := Some "debian";
     Config.env_vars := Some {[ "A" := "1" ]};
     Config.labels := None;
     Config.public := Some false;
     Config.target := None;
     Config.resources := Some 2;
     Config.auto_stop_interval := Some 0 |}.

(** A configuration nobody would call valid: no language, no image, and a
    negative auto-stop interval. *)
Definition odd_config : Config.t :=
  {| Config.base := tt;
     Config.api_key := None;
     Config.language := None;
     Config.id := None;
     Config.name := Some EmptyString;
     Config.image := None;
     Config.env_vars := None;
     Config.labels := None;
     Config.public := None;
     Config.target := None;
     Config.resources := Some (-1);
     Config.auto_stop_interval := Some (-5) |}.

Definition start (env : gmap string string) : State :=
  {| world := 0%nat; environ := env; self := ∅; trace := [] |}.

(** The states after construction and after setup, with the timeout
    variable unset, set to "30", and set to "soon". *)
Definition constructed (env : gmap string string) : State :=
  snd (new_DaytonaWorkspace sdk config (start env)).

Definition ready (env : gmap string string) : State :=
  snd (setup (constructed env)).

(** A workspace on which something has put a port list before setup. *)
Definition with_ports (l : list Val) (st : State) : State :=
  {| world := world st; environ := environ st;
     self := <["ports" := VList l]> (self st); trace := trace st |}.

Definition env_unset : gmap string string := ∅.
Definition env_30 : gmap string string := {[ "WORKSPACE_WAIT_TIMEOUT" := "30" ]}.
Definition env_soon : gmap string string := {[ "WORKSPACE_WAIT_TIMEOUT" := "soon" ]}.
End Demo.

(** ** Properties *)

(** Unfolding the methods down to the state they act on. *)
Ltac py_unfold_in H :=
  cbv beta iota zeta delta
    [new_DaytonaWorkspace __init__ setup _wait wait_timeout teardown
     bind ret raise getattr setattr hasattr call super_call global
     os_environ_get] in H;
  cbn [world environ self trace fst snd] in H.

Ltac py_unfold :=
  cbv beta iota zeta delta
    [new_DaytonaWorkspace __init__ setup _wait wait_timeout teardown
     bind ret raise getattr setattr hasattr call super_call global
     os_environ_get];
  cbn [world environ self trace fst snd].

(** Case analysis on the innermost scrutinee that blocks a hypothesis. *)
Ltac py_case_in H :=
  match type of H with
  | context [match ?x with _ => _ end] =>
      lazymatch x with
      | context [match _ with _ => _ end] => fail
      | _ => destruct x eqn:?
      end
  end.

Ltac py_lookups_in H :=
  repeat first
    [ rewrite lookup_insert_eq in H
    | rewrite lookup_insert_ne in H by discriminate ].

(** Inversion of a run: every branch the run can have taken, one goal each,
    with the results of the calls it made as hypotheses. *)
Ltac py_invert H :=
  py_unfold_in H;
  repeat first
    [ progress py_lookups_in H
    | progress (cbn [world environ self trace fst snd] in H)
    | match goal with
      | E : ?x = _ |- _ =>
          match type of H with
          | context [match x with _ => _ end] => rewrite E in H
          end
      end
    | py_case_in H ];
  try discriminate H;
  repeat match goal with u : unit |- _ => destruct u end.

(** Running a method forwards, with the results of the calls it makes given
    as hypotheses. *)
Ltac py_run :=
  py_unfold;
  repeat first
    [ rewrite lookup_insert_eq
    | rewrite lookup_insert_ne by discriminate
    | progress cbn [world environ self trace fst snd]
    | match goal with
      | E : ?x = _ |- context [match ?x with _ => _ end] => rewrite E
      end ].

(** Resolving the case distinctions of a hypothesis that the context
    decides. *)
Ltac py_given H :=
  repeat match goal with
    | E : ?x = _ |- _ =>
        match type of H with
        | context [match x with _ => _ end] => rewrite E in H
        end
    end.

(** [trace st' = trace st ++ ?calls], whatever was appended. *)
Ltac py_trace :=
  cbn [trace];
  first [ symmetry; apply app_nil_r | rewrite <- ?app_assoc; reflexivity ].

(** Membership of a call in an explicit list of calls. *)
Ltac py_elem H :=
  cbn [app] in H;
  repeat first
    [ apply elem_of_nil in H; destruct H
    | apply elem_of_cons in H; destruct H as [H|H]; [try discriminate H|] ].

(** Running the module body forwards, with what the SDK exports given as
    hypotheses. *)
Ltac py_import_run :=
  cbv beta iota zeta delta
    [import_workspace_module module_body from_daytona_sdk_import
     try_except_ImportError bind import_names set_global get_global raise ret
     is_ImportError];
  repeat first
    [ rewrite decide_True by assumption
    | rewrite decide_False by assumption
    | rewrite lookup_insert_eq
    | rewrite lookup_insert_ne by discriminate
    | rewrite lookup_empty
    | progress cbv beta iota zeta ].

Ltac py_lookups :=
  repeat first
    [ rewrite lookup_insert_eq
    | rewrite lookup_insert_ne by discriminate ].

Section Properties.
Context `{SdkOps}.

(** The base class defines no attribute called [sandbox]: neither its
    constructor nor its teardown leaves one behind on an object that had
    none. *)
Definition base_has_no_sandbox_attribute : Prop :=
  (forall config a w r a' w',
      RemoteWorkspace_init config (a, w) = (r, (a', w')) ->
      a !! "sandbox" = None -> a' !! "sandbox" = None) /\
  (forall a w r a' w',
      RemoteWorkspace_teardown (a, w) = (r, (a', w')) ->
      a !! "sandbox" = None -> a' !! "sandbox" = None).

(** The names daytona_sdk has to export for the module to be imported:
    the one of line 7, the first of the guarded import (without it none of
    the others is bound), and those the annotations of [Config] use. *)
Definition exports_needed_to_import (exports : gset string) : Prop :=
  "DaytonaConfig" ∈ exports /\ "Daytona" ∈ exports /\
  "CodeLanguage" ∈ exports /\ "SandboxTargetRegion" ∈ exports /\
  "SandboxResources" ∈ exports.

(** The globals of the module after an import that succeeded. *)
Lemma import_workspace_module_globals exports :
  exports_needed_to_import exports ->
  exists g,
    import_workspace_module (Some exports) = Ok g /\
    g !! "DAYTONA_INSTALLED"
    = Some (GBool (bool_decide ("CreateSandboxParams" ∈ exports))) /\
    g !! "Daytona" = Some (GSdk "Daytona") /\
    g !! "DaytonaConfig" = Some (GSdk "DaytonaConfig") /\
    ("CreateSandboxParams" ∈ exports ->
     g !! "CreateDaytonaSandboxParams" = Some (GSdk "CreateSandboxParams")).
Proof.
  intros (H1 & H2 & H3 & H4 & H5).
  destruct (decide ("CreateSandboxParams" ∈ exports)) as [H6|H6].
  - rewrite bool_decide_eq_true_2 by assumption.
    py_import_run.
    eexists; split; [reflexivity|].
    repeat split; intros;
      by repeat first [rewrite lookup_insert_eq | rewrite lookup_insert_ne by discriminate].
  - rewrite bool_decide_eq_false_2 by assumption.
    py_import_run.
    eexists; split; [reflexivity|].
    repeat split; try contradiction;
      by repeat first [rewrite lookup_insert_eq | rewrite lookup_insert_ne by discriminate].
Qed.

(** What a successful construction did, step by step. *)
Lemma new_DaytonaWorkspace_Ok sdk config st st' :
  new_DaytonaWorkspace sdk config st = (Ok tt, st') ->
  exists a w c w' dc kwargs p w'',
    RemoteWorkspace_init config (∅, world st) = (Ok tt, (a, w)) /\
    dc = {| DaytonaConfig.api_key := Config.api_key config;
            DaytonaConfig.server_url := "https://app.daytona.io/api" |} /\
    Daytona_init dc w = (Ok c, w') /\
    kwargs = {| CreateSandboxParams.language := Config.language config;
                CreateSandboxParams.id := Config.id config;
                CreateSandboxParams.name := Config.name config;
                CreateSandboxParams.image := Config.image config;
                CreateSandboxParams.env_vars := Config.env_vars config;
                CreateSandboxParams.labels := Config.labels config;
                CreateSandboxParams.public := Config.public config;
                CreateSandboxParams.target := Config.target config;
                CreateSandboxParams.resources := Config.resources config;
                CreateSandboxParams.auto_stop_interval :=
                  Config.auto_stop_interval config |} /\
    CreateSandboxParams_init kwargs w' = (Ok p, w'') /\
    st' = {| world := w''; environ := environ st;
             self := <["daytona_create_sandbox_params" := VParams p]>
                       (<["daytona" := VClient c]> a);
             trace := trace st ++ [CallBaseInit config; CallDaytona dc;
                                   CallCreateSandboxParams kwargs] |}.
Proof.
  intros Hnew. py_invert Hnew. injection Hnew as <-.
  do 8 eexists.
  split; [reflexivity|]. split; [reflexivity|]. split; [eassumption|].
  split; [reflexivity|]. split; [eassumption|].
  by rewrite <- !app_assoc.
Qed.

(** What a successful setup did, step by step. *)
Lemma setup_Ok st st' :
  setup st = (Ok tt, st') ->
  exists c p sb w1 link w2 t w3,
    self st !! "daytona" = Some (VClient c) /\
    self st !! "daytona_create_sandbox_params" = Some p /\
    Daytona_create c p (world st) = (Ok sb, w1) /\
    Sandbox_get_preview_link sb 8000 w1 = (Ok link, w2) /\
    match environ st !! "WORKSPACE_WAIT_TIMEOUT" with
    | Some s => float_of_str s = Some t
    | None => t = float_60
    end /\
    Sandbox_wait_for_sandbox_start sb t w2 = (Ok tt, w3) /\
    st' = {| world := w3; environ := environ st;
             self :=
               <["ports" := VList []]>
                 (<["host" := VStr link]>
                    (<["url" := VStr (Daytona_server_url c +:+ "/toolbox/"
                                      +:+ Sandbox_id sb +:+ "/toolbox")]>
                       (<["daytona_sandbox" := VSandbox sb]> (self st))));
             trace := trace st ++ [CallCreate c p; CallPreviewLink sb 8000;
                                   CallWaitStart sb t] |}.
Proof.
  intros Hsetup. py_invert Hsetup; injection Hsetup as -> <-;
    do 8 eexists;
    repeat (split; [first [reflexivity | eassumption]|]);
    by rewrite insert_insert_eq, <- !app_assoc.
Qed.

(** Attributes other than the four that setup assigns are left alone. *)
Lemma setup_Ok_other_attributes st st' n :
  setup st = (Ok tt, st') ->
  n <> "daytona_sandbox" -> n <> "url" -> n <> "host" -> n <> "ports" ->
  self st' !! n = self st !! n.
Proof.
  intros Hsetup ????.
  destruct (setup_Ok _ _ Hsetup) as (c & p & sb & w1 & link & w2 & t & w3 & Hst).
  destruct Hst as (_ & _ & _ & _ & _ & _ & ->). cbn [self].
  by rewrite !lookup_insert_ne.
Qed.

(** A teardown on an object without a [sandbox] attribute is the base
    class's teardown and nothing more. *)
Lemma teardown_without_sandbox_attribute st r a w :
  RemoteWorkspace_teardown (self st, world st) = (r, (a, w)) ->
  a !! "sandbox" = None ->
  teardown st =
    (r, {| world := w; environ := environ st; self := a;
           trace := trace st ++ [CallBaseTeardown] |}).
Proof.
  intros Hbase Hattr. py_unfold. rewrite Hbase.
  destruct r as [[]|e]; [|reflexivity].
  cbn [world environ self trace]. rewrite Hattr.
  rewrite bool_decide_eq_false_2; [reflexivity|].
  by intros [? ?].
Qed.

(** *** Construction *)

(** C2, as the code has it: without the vendor SDK the module itself cannot
    be imported.  The import on line 7 is outside the [try], so the
    expression [DaytonaWorkspace(config)] ends in a [ModuleNotFoundError],
    for every configuration and in every state, and the guard that raises
    [ComposioSDKError] is not reached. *)
Theorem new_DaytonaWorkspace_without_sdk (config : Config.t) (st : State) :
  new_DaytonaWorkspace None config st
  = (Raise (ModuleNotFoundError "daytona_sdk"), st).
Proof. reflexivity. Qed.

(** C3: for every configuration, the adapter hands the vendor's parameter
    constructor the ten fields of the configuration, each under its own
    name and as it is, and adds no check of its own: on an SDK that can be
    imported, once the base class's [__init__] and the client's
    constructor have returned, that call is made whatever the fields
    hold, construction ends as the call ends, and when the call returns
    [daytona_create_sandbox_params] is the object it returned. *)
Theorem init_forwards_config_fields exports config st a w c w' rp w'' :
  exports_needed_to_import exports ->
  "CreateSandboxParams" ∈ exports ->
  RemoteWorkspace_init config (∅, world st) = (Ok tt, (a, w)) ->
  Daytona_init {| DaytonaConfig.api_key := Config.api_key config;
                  DaytonaConfig.server_url := "https://app.daytona.io/api" |} w
  = (Ok c, w') ->
  CreateSandboxParams_init
    {| CreateSandboxParams.language := Config.language config;
       CreateSandboxParams.id := Config.id config;
       CreateSandboxParams.name := Config.name config;
       CreateSandboxParams.image := Config.image config;
       CreateSandboxParams.env_vars := Config.env_vars config;
       CreateSandboxParams.labels := Config.labels config;
       CreateSandboxParams.public := Config.public config;
       CreateSandboxParams.target := Config.target config;
       CreateSandboxParams.resources := Config.resources config;
       CreateSandboxParams.auto_stop_interval :=
         Config.auto_stop_interval config |} w'
  = (rp, w'') ->
  exists st',
    new_DaytonaWorkspace (Some exports) config st
    = (match rp with Ok _ => Ok tt | Raise e => Raise e end, st') /\
    trace st'
    = trace st
      ++ [CallBaseInit config;
          CallDaytona
            {| DaytonaConfig.api_key := Config.api_key config;
               DaytonaConfig.server_url := "https://app.daytona.io/api" |};
          CallCreateSandboxParams
            {| CreateSandboxParams.language := Config.language config;
               CreateSandboxParams.id := Config.id config;
               CreateSandboxParams.name := Config.name config;
               CreateSandboxParams.image := Config.image config;
               CreateSandboxParams.env_vars := Config.env_vars config;
               CreateSandboxParams.labels := Config.labels config;
               CreateSandboxParams.public := Config.public config;
               CreateSandboxParams.target := Config.target config;
               CreateSandboxParams.resources := Config.resources config;
               CreateSandboxParams.auto_stop_interval :=
                 Config.auto_stop_interval config |}] /\
    self st' !! "daytona_create_sandbox_params"
    = match rp with
      | Ok p => Some (VParams p)
      | Raise _ => a !! "daytona_create_sandbox_params"
      end.
Proof.
  intros Hex Hyes Hbase Hclient Hparams.
  destruct (import_workspace_module_globals _ Hex)
    as (g & Hg & Hflag & HD & HDC & HP).
  rewrite bool_decide_eq_true_2 in Hflag by assumption.
  specialize (HP Hyes).
  destruct rp as [p|e]; (eexists; split; [|split]).
  - py_run. cbn [negb truthy]. py_run. reflexivity.
  - cbn [trace]. by rewrite <- !app_assoc.
  - cbn [self]. by py_lookups.
  - py_run. cbn [negb truthy]. py_run. reflexivity.
  - cbn [trace]. by rewrite <- !app_assoc.
  - cbn [self]. by rewrite lookup_insert_ne.
Qed.


(** *** Setup *)

(** C4: the timeout of the wait.  In every run of setup, however it
    ends, a wait for the sandbox to start carries the timeout
    [float(WORKSPACE_WAIT_TIMEOUT)] when the variable is set and [60.0]
    when it is not, and a setup that succeeds has issued one.  And the
    wait is issued: once the create call and the preview-link request
    have returned, the calls of the run are those two and one wait, with
    that timeout; with the variable unset, with [60.0]. *)
Theorem setup_wait_timeout st r st' :
  setup st = (r, st') ->
  exists calls,
    trace st' = trace st ++ calls /\
    (forall sb t,
        CallWaitStart sb t ∈ calls ->
        match environ st !! "WORKSPACE_WAIT_TIMEOUT" with
        | Some s => float_of_str s = Some t
        | None => t = 60%float
        end) /\
    (r = Ok tt -> exists sb t, CallWaitStart sb t ∈ calls) /\
    (forall c p sb w1 link w2 t,
        self st !! "daytona" = Some (VClient c) ->
        self st !! "daytona_create_sandbox_params" = Some p ->
        Daytona_create c p (world st) = (Ok sb, w1) ->
        Sandbox_get_preview_link sb 8000 w1 = (Ok link, w2) ->
        match environ st !! "WORKSPACE_WAIT_TIMEOUT" with
        | Some s => float_of_str s = Some t
        | None => t = 60%float
        end ->
        calls = [CallCreate c p; CallPreviewLink sb 8000;
                 CallWaitStart sb t]).
Proof.
  intros Hsetup.
  py_invert Hsetup; injection Hsetup as <- <-;
    (eexists; split; [py_trace|]; split; [|split];
     [ intros sb' t' Hin; py_elem Hin; unfold float_60 in *; congruence
     | intros Hr; try discriminate Hr;
       do 2 eexists; do 2 (apply elem_of_cons; right);
       apply elem_of_cons; by left
     | intros c' p' sb' w1' link' w2' t' Hc Hp Hcreate Hlink Ht;
       unfold TOOLSERVER_PORT, float_60 in *; py_given Ht; cbn [app];
       congruence ]).
Qed.

(** C5: after a setup that succeeds, [url] is the client's server URL
    followed by "/toolbox/", the identifier of the sandbox that the create
    call returned, and "/toolbox". *)
Theorem setup_url st st' :
  setup st = (Ok tt, st') ->
  exists c p sb w,
    self st !! "daytona" = Some (VClient c) /\
    self st !! "daytona_create_sandbox_params" = Some p /\
    Daytona_create c p (world st) = (Ok sb, w) /\
    self st' !! "daytona_sandbox" = Some (VSandbox sb) /\
    self st' !! "url"
    = Some (VStr (Daytona_server_url c +:+ "/toolbox/" +:+ Sandbox_id sb
                  +:+ "/toolbox")).
Proof.
  intros Hsetup.
  destruct (setup_Ok _ _ Hsetup)
    as (c & p & sb & w1 & link & w2 & t & w3 & Hc & Hp & Hcreate & _ & _ & _ & ->).
  exists c, p, sb, w1. cbn [self].
  repeat (split; [assumption|]).
  split; by repeat first [rewrite lookup_insert_eq | rewrite lookup_insert_ne by discriminate].
Qed.

(** C6: after a setup that succeeds, [host] is what the created sandbox's
    preview link for port 8000 returned; that request, for that port, is
    the one preview-link request in the run. *)
Theorem setup_host_from_port_8000 st st' :
  setup st = (Ok tt, st') ->
  exists c p sb w link w' t,
    Daytona_create c p (world st) = (Ok sb, w) /\
    Sandbox_get_preview_link sb 8000 w = (Ok link, w') /\
    self st' !! "host" = Some (VStr link) /\
    trace st' = trace st ++ [CallCreate c p; CallPreviewLink sb 8000;
                             CallWaitStart sb t].
Proof.
  intros Hsetup.
  destruct (setup_Ok _ _ Hsetup)
    as (c & p & sb & w1 & link & w2 & t & w3 & _ & _ & Hcreate & Hlink & _ & _ & ->).
  exists c, p, sb, w1, link, w2, t. cbn [self trace].
  repeat (split; [assumption|]).
  split; [|reflexivity].
  by repeat first [rewrite lookup_insert_eq | rewrite lookup_insert_ne by discriminate].
Qed.

(** C9: setup sets [ports] to the empty list.  After a setup that
    succeeds, [ports] is the empty list, whatever it held before; the
    assignment is made as soon as the preview-link request has returned,
    so the same holds then however the wait ends; and setup does succeed
    when the three calls it makes return. *)
Theorem setup_ports_empty st r st' :
  setup st = (r, st') ->
  (r = Ok tt -> self st' !! "ports" = Some (VList [])) /\
  (forall c p sb w1 link w2,
      self st !! "daytona" = Some (VClient c) ->
      self st !! "daytona_create_sandbox_params" = Some p ->
      Daytona_create c p (world st) = (Ok sb, w1) ->
      Sandbox_get_preview_link sb 8000 w1 = (Ok link, w2) ->
      self st' !! "ports" = Some (VList []) /\
      forall t w3,
        match environ st !! "WORKSPACE_WAIT_TIMEOUT" with
        | Some s => float_of_str s = Some t
        | None => t = 60%float
        end ->
        Sandbox_wait_for_sandbox_start sb t w2 = (Ok tt, w3) ->
        r = Ok tt).
Proof.
  intros Hsetup. split.
  - intros ->.
    destruct (setup_Ok _ _ Hsetup)
      as (c & p & sb & w1 & link & w2 & t & w3 & _ & _ & _ & _ & _ & _ & ->).
    apply lookup_insert_eq.
  - intros c p sb w1 link w2 Hc Hp Hcreate Hlink.
    revert Hsetup. py_run. unfold TOOLSERVER_PORT. rewrite Hlink. py_run.
    intros Hsetup. split.
    + py_invert Hsetup; injection Hsetup as <- <-; apply lookup_insert_eq.
    + intros t w3 Ht Hwait. unfold float_60 in *.
      py_invert Hsetup; py_given Ht; congruence.
Qed.

(** C10: when WORKSPACE_WAIT_TIMEOUT is set to a string that [float]
    rejects, a setup whose create and preview-link calls succeed raises
    the [ValueError] of the conversion; the create call has been issued by
    then, and no wait is issued at all. *)
Theorem setup_unparsable_timeout st c p sb w1 link w2 s :
  self st !! "daytona" = Some (VClient c) ->
  self st !! "daytona_create_sandbox_params" = Some p ->
  Daytona_create c p (world st) = (Ok sb, w1) ->
  Sandbox_get_preview_link sb 8000 w1 = (Ok link, w2) ->
  environ st !! "WORKSPACE_WAIT_TIMEOUT" = Some s ->
  float_of_str s = None ->
  exists st',
    setup st = (Raise (ValueError s), st') /\
    world st' = w2 /\
    trace st' = trace st ++ [CallCreate c p; CallPreviewLink sb 8000].
Proof.
  intros Hc Hp Hcreate Hlink Henv Hfloat.
  eexists. split; [|split].
  - py_run. unfold TOOLSERVER_PORT. rewrite Hlink. py_run. reflexivity.
  - reflexivity.
  - cbn [trace]. by rewrite <- app_assoc.
Qed.

(** *** Teardown *)

(** C1, as the code has it: the test on line 117 asks for an attribute
    called [sandbox], while setup stores the handle in [daytona_sandbox].
    With a base class that defines no [sandbox] attribute, a teardown that
    follows a successful setup calls the base class's teardown and stops:
    the handle is there, and the provider's remove is not called. *)
Theorem teardown_after_setup_skips_remove sdk config st0 st1 st2 :
  base_has_no_sandbox_attribute ->
  new_DaytonaWorkspace sdk config st0 = (Ok tt, st1) ->
  setup st1 = (Ok tt, st2) ->
  exists sb r st3,
    self st2 !! "daytona_sandbox" = Some (VSandbox sb) /\
    teardown st2 = (r, st3) /\
    trace st3 = trace st2 ++ [CallBaseTeardown].
Proof.
  intros [Hinit Hdown] Hnew Hsetup.
  assert (self st2 !! "sandbox" = None) as Hattr.
  { rewrite (setup_Ok_other_attributes _ _ "sandbox" Hsetup) by discriminate.
    destruct (new_DaytonaWorkspace_Ok _ _ _ _ Hnew)
      as (a & w & c & w' & dc & kwargs & p & w'' & Hbase & _ & _ & _ & _ & ->).
    cbn [self]. rewrite !lookup_insert_ne by discriminate.
    eapply Hinit; [exact Hbase|]. apply lookup_empty. }
  assert (exists sb, self st2 !! "daytona_sandbox" = Some (VSandbox sb))
    as [sb Hsb].
  { destruct (setup_Ok _ _ Hsetup)
      as (c & p & sb & w1 & link & w2 & t & w3 & _ & _ & _ & _ & _ & _ & ->).
    exists sb. cbn [self]. rewrite !lookup_insert_ne by discriminate.
    apply lookup_insert_eq. }
  destruct (RemoteWorkspace_teardown (self st2, world st2))
    as [r [a w]] eqn:Hbase.
  exists sb, r. eexists. split; [exact Hsb|]. split.
  - apply teardown_without_sandbox_attribute; [exact Hbase|].
    eapply Hdown; [exact Hbase|exact Hattr].
  - reflexivity.
Qed.

(** C8: with a base class that defines no [sandbox] attribute, a teardown
    on a workspace that was constructed and never set up is the base
    class's teardown and nothing else: its result is the base class's
    result, and the one call it makes is that one, so the provider's
    remove is not called and the missing handle is never read. *)
Theorem teardown_without_setup sdk config st0 st1 :
  base_has_no_sandbox_attribute ->
  new_DaytonaWorkspace sdk config st0 = (Ok tt, st1) ->
  exists r a w,
    RemoteWorkspace_teardown (self st1, world st1) = (r, (a, w)) /\
    teardown st1 =
      (r, {| world := w; environ := environ st1; self := a;
             trace := trace st1 ++ [CallBaseTeardown] |}).
Proof.
  intros [Hinit Hdown] Hnew.
  assert (self st1 !! "sandbox" = None) as Hattr.
  { destruct (new_DaytonaWorkspace_Ok _ _ _ _ Hnew)
      as (a & w & c & w' & dc & kwargs & p & w'' & Hbase & _ & _ & _ & _ & ->).
    cbn [self]. rewrite !lookup_insert_ne by discriminate.
    eapply Hinit; [exact Hbase|]. apply lookup_empty. }
  destruct (RemoteWorkspace_teardown (self st1, world st1))
    as [r [a w]] eqn:Hbase.
  exists r, a, w. split; [reflexivity|].
  apply teardown_without_sandbox_attribute; [exact Hbase|].
  eapply Hdown; [exact Hbase|exact Hattr].
Qed.
End Properties.

(** ** The theorems at work on the concrete provider *)

Module Witness.
Import Demo.
#[local] Existing Instance types.
#[local] Existing Instance ops.

Lemma demo_base_has_no_sandbox_attribute : base_has_no_sandbox_attribute.
Proof.
  split.
  - intros cfg a w r a' w' Hrun Ha. cbn in Hrun. injection Hrun as _ <- _.
    by rewrite !lookup_insert_ne.
  - intros a w r a' w' Hrun Ha. cbn in Hrun. by injection Hrun as _ <- _.
Qed.

Definition demo_client : DaytonaConfig.t :=
  {| DaytonaConfig.api_key := Some "key";
     DaytonaConfig.server_url := "https://app.daytona.io/api" |}.

Definition demo_params : Val := VParams (Some "sb1").

Definition sb1 : Sandbox := "sb1".

Lemma exports_complete : exports_needed_to_import exports.
Proof. repeat split; set_solver. Qed.

Lemma old_exports_complete : exports_needed_to_import old_exports.
Proof. repeat split; set_solver. Qed.

Lemma exports_has_params : "CreateSandboxParams" ∈ exports.
Proof. set_solver. Qed.

Lemma old_exports_lacks_params : "CreateSandboxParams" ∉ old_exports.
Proof.
  unfold old_exports. rewrite !not_elem_of_union, !not_elem_of_singleton.
  repeat split; discriminate.
Qed.

(** With an SDK that lacks only [CreateSandboxParams] the module does load,
    and the guard of [__init__] is reached. *)
Example new_DaytonaWorkspace_old_sdk :
  fst (new_DaytonaWorkspace old_sdk config (start env_unset))
  = Raise (ComposioSDKError missing_dependency_message).
Proof. vm_compute. reflexivity. Qed.

(** With an SDK that lacks [CodeLanguage] the class body of [Config] fails
    on the unbound name. *)
Example new_DaytonaWorkspace_partial_sdk :
  fst (new_DaytonaWorkspace (Some {[ "DaytonaConfig"; "Daytona" ]}) config
         (start env_unset))
  = Raise (NameError "SandboxCodeLanguage").
Proof. vm_compute. reflexivity. Qed.

(** C3 on a configuration that a validating constructor would turn away:
    the adapter passes it on as it is. *)
Lemma init_forwards_config_fields_witness :
  (exports_needed_to_import exports /\
   "CreateSandboxParams" ∈ exports /\
   RemoteWorkspace_init odd_config (∅, world (start env_unset))
   = (Ok tt, (base_attrs, 0%nat)) /\
   Daytona_init {| DaytonaConfig.api_key := Config.api_key odd_config;
                   DaytonaConfig.server_url := "https://app.daytona.io/api" |} 0%nat
   = (Ok {| DaytonaConfig.api_key := Config.api_key odd_config;
            DaytonaConfig.server_url := "https://app.daytona.io/api" |}, 0%nat) /\
   CreateSandboxParams_init
     {| CreateSandboxParams.language := Config.language odd_config;
        CreateSandboxParams.id := Config.id odd_config;
        CreateSandboxParams.name := Config.name odd_config;
        CreateSandboxParams.image := Config.image odd_config;
        CreateSandboxParams.env_vars := Config.env_vars odd_config;
        CreateSandboxParams.labels := Config.labels odd_config;
        CreateSandboxParams.public := Config.public odd_config;
        CreateSandboxParams.target := Config.target odd_config;
        CreateSandboxParams.resources := Config.resources odd_config;
        CreateSandboxParams.auto_stop_interval := Config.auto_stop_interval odd_config |} 0%nat
   = (Ok None, 0%nat)) /\
  exists st',
    new_DaytonaWorkspace (Some exports) odd_config (start env_unset)
    = (Ok tt, st') /\
    trace st'
    = trace (start env_unset)
      ++ [CallBaseInit odd_config;
          CallDaytona
            {| DaytonaConfig.api_key := Config.api_key odd_config;
               DaytonaConfig.server_url := "https://app.daytona.io/api" |};
          CallCreateSandboxParams
            {| CreateSandboxParams.language := None;
               CreateSandboxParams.id := None;
               CreateSandboxParams.name := Some EmptyString;
               CreateSandboxParams.image := None;
               CreateSandboxParams.env_vars := None;
               CreateSandboxParams.labels := None;
               CreateSandboxParams.public := None;
               CreateSandboxParams.target := None;
               CreateSandboxParams.resources := Some (-1);
               CreateSandboxParams.auto_stop_interval := Some (-5) |}] /\
    self st' !! "daytona_create_sandbox_params" = Some (VParams None).
Proof.
  split.
  - split; [exact exports_complete|]. split; [exact exports_has_params|].
    repeat split; reflexivity.
  - apply (init_forwards_config_fields exports odd_config (start env_unset)
             base_attrs 0%nat
             {| DaytonaConfig.api_key := Config.api_key odd_config;
                DaytonaConfig.server_url := "https://app.daytona.io/api" |}
             0%nat (Ok None) 0%nat).
    + exact exports_complete.
    + exact exports_has_params.
    + reflexivity.
    + reflexivity.
    + reflexivity.
Defined.


(** C4 with the variable unset, where the wait gets [60.0], and with the
    variable set to "30". *)
Lemma setup_wait_timeout_witness :
  (setup (constructed env_unset) = (Ok tt, ready env_unset) /\
   trace (ready env_unset)
   = trace (constructed env_unset)
     ++ [CallCreate demo_client demo_params; CallPreviewLink sb1 8000;
         CallWaitStart sb1 60%float] /\
    exists calls,
      trace (ready env_unset) = trace (constructed env_unset) ++ calls /\
      (forall sb t,
          CallWaitStart sb t ∈ calls ->
          match environ (constructed env_unset) !! "WORKSPACE_WAIT_TIMEOUT" with
          | Some s => float_of_str s = Some t
          | None => t = 60%float
          end) /\
      (Ok tt = Ok tt -> exists sb t, CallWaitStart sb t ∈ calls) /\
      (forall c p sb w1 link w2 t,
          self (constructed env_unset) !! "daytona" = Some (VClient c) ->
          self (constructed env_unset) !! "daytona_create_sandbox_params"
          = Some p ->
          Daytona_create c p (world (constructed env_unset)) = (Ok sb, w1) ->
          Sandbox_get_preview_link sb 8000 w1 = (Ok link, w2) ->
          match environ (constructed env_unset) !! "WORKSPACE_WAIT_TIMEOUT" with
          | Some s => float_of_str s = Some t
          | None => t = 60%float
          end ->
          calls = [CallCreate c p; CallPreviewLink sb 8000;
                   CallWaitStart sb t])) /\
  (setup (constructed env_30) = (Ok tt, ready env_30) /\
   trace (ready env_30)
   = trace (constructed env_30)
     ++ [CallCreate demo_client demo_params; CallPreviewLink sb1 8000;
         CallWaitStart sb1 30%float] /\
    exists calls,
      trace (ready env_30) = trace (constructed env_30) ++ calls /\
      (forall sb t,
          CallWaitStart sb t ∈ calls ->
          match environ (constructed env_30) !! "WORKSPACE_WAIT_TIMEOUT" with
          | Some s => float_of_str s = Some t
          | None => t = 60%float
          end) /\
      (Ok tt = Ok tt -> exists sb t, CallWaitStart sb t ∈ calls) /\
      (forall c p sb w1 link w2 t,
          self (constructed env_30) !! "daytona" = Some (VClient c) ->
          self (constructed env_30) !! "daytona_create_sandbox_params"
          = Some p ->
          Daytona_create c p (world (constructed env_30)) = (Ok sb, w1) ->
          Sandbox_get_preview_link sb 8000 w1 = (Ok link, w2) ->
          match environ (constructed env_30) !! "WORKSPACE_WAIT_TIMEOUT" with
          | Some s => float_of_str s = Some t
          | None => t = 60%float
          end ->
          calls = [CallCreate c p; CallPreviewLink sb 8000;
                   CallWaitStart sb t])).
Proof.
  split.
  - split; [vm_compute; reflexivity|]. split; [vm_compute; reflexivity|].
    apply (setup_wait_timeout (constructed env_unset) (Ok tt)
             (ready env_unset)).
    vm_compute. reflexivity.
  - split; [vm_compute; reflexivity|]. split; [vm_compute; reflexivity|].
    apply (setup_wait_timeout (constructed env_30) (Ok tt) (ready env_30)).
    vm_compute. reflexivity.
Defined.

Lemma setup_url_witness :
  setup (constructed env_unset) = (Ok tt, ready env_unset) /\
  exists c p sb w,
    self (constructed env_unset) !! "daytona" = Some (VClient c) /\
    self (constructed env_unset) !! "daytona_create_sandbox_params" = Some p /\
    Daytona_create c p (world (constructed env_unset)) = (Ok sb, w) /\
    self (ready env_unset) !! "daytona_sandbox" = Some (VSandbox sb) /\
    self (ready env_unset) !! "url"
    = Some (VStr (Daytona_server_url c +:+ "/toolbox/" +:+ Sandbox_id sb
                  +:+ "/toolbox")).
Proof.
  split; [vm_compute; reflexivity|].
  apply (setup_url (constructed env_unset)).
  vm_compute. reflexivity.
Defined.

Lemma setup_host_from_port_8000_witness :
  setup (constructed env_unset) = (Ok tt, ready env_unset) /\
  exists c p sb w link w' t,
    Daytona_create c p (world (constructed env_unset)) = (Ok sb, w) /\
    Sandbox_get_preview_link sb 8000 w = (Ok link, w') /\
    self (ready env_unset) !! "host" = Some (VStr link) /\
    trace (ready env_unset)
    = trace (constructed env_unset)
      ++ [CallCreate c p; CallPreviewLink sb 8000; CallWaitStart sb t].
Proof.
  split; [vm_compute; reflexivity|].
  apply (setup_host_from_port_8000 (constructed env_unset)).
  vm_compute. reflexivity.
Defined.

(** C9 on a workspace whose port list was not empty before setup. *)
Lemma setup_ports_empty_witness :
  let st := with_ports [VStr "8000"] (constructed env_unset) in
  (self st !! "ports" = Some (VList [VStr "8000"]) /\
   setup st = (Ok tt, snd (setup st))) /\
  (Ok tt = Ok tt -> self (snd (setup st)) !! "ports" = Some (VList [])) /\
  (forall c p sb w1 link w2,
      self st !! "daytona" = Some (VClient c) ->
      self st !! "daytona_create_sandbox_params" = Some p ->
      Daytona_create c p (world st) = (Ok sb, w1) ->
      Sandbox_get_preview_link sb 8000 w1 = (Ok link, w2) ->
      self (snd (setup st)) !! "ports" = Some (VList []) /\
      forall t w3,
        match environ st !! "WORKSPACE_WAIT_TIMEOUT" with
        | Some s => float_of_str s = Some t
        | None => t = 60%float
        end ->
        Sandbox_wait_for_sandbox_start sb t w2 = (Ok tt, w3) ->
        Ok tt = Ok tt).
Proof.
  intros st.
  split; [split; vm_compute; reflexivity|].
  apply (setup_ports_empty st (Ok tt) (snd (setup st))).
  vm_compute. reflexivity.
Defined.

Lemma setup_unparsable_timeout_witness :
  (self (constructed env_soon) !! "daytona" = Some (VClient demo_client) /\
   self (constructed env_soon) !! "daytona_create_sandbox_params"
   = Some demo_params /\
   Daytona_create demo_client demo_params (world (constructed env_soon))
   = (Ok "sb1", 1%nat) /\
   Sandbox_get_preview_link "sb1" 8000 1%nat = (Ok "https://8000-sb1", 1%nat) /\
   environ (constructed env_soon) !! "WORKSPACE_WAIT_TIMEOUT" = Some "soon" /\
   float_of_str "soon" = None) /\
  exists st',
    setup (constructed env_soon) = (Raise (ValueError "soon"), st') /\
    world st' = 1%nat /\
    trace st' = trace (constructed env_soon)
                ++ [CallCreate demo_client demo_params;
                    CallPreviewLink "sb1" 8000].
Proof.
  split; [repeat split; vm_compute; reflexivity|].
  apply (setup_unparsable_timeout (constructed env_soon) demo_client
           demo_params "sb1" 1%nat "https://8000-sb1" 1%nat "soon");
    vm_compute; reflexivity.
Defined.

Lemma teardown_after_setup_skips_remove_witness :
  (base_has_no_sandbox_attribute /\
   new_DaytonaWorkspace sdk config (start env_unset)
   = (Ok tt, constructed env_unset) /\
   setup (constructed env_unset) = (Ok tt, ready env_unset)) /\
  exists sb r st3,
    self (ready env_unset) !! "daytona_sandbox" = Some (VSandbox sb) /\
    teardown (ready env_unset) = (r, st3) /\
    trace st3 = trace (ready env_unset) ++ [CallBaseTeardown].
Proof.
  split.
  - split; [exact demo_base_has_no_sandbox_attribute|].
    split; vm_compute; reflexivity.
  - apply (teardown_after_setup_skips_remove sdk config (start env_unset)
             (constructed env_unset) (ready env_unset)).
    + exact demo_base_has_no_sandbox_attribute.
    + vm_compute. reflexivity.
    + vm_compute. reflexivity.
Defined.

Lemma teardown_without_setup_witness :
  (base_has_no_sandbox_attribute /\
   new_DaytonaWorkspace sdk config (start env_unset)
   = (Ok tt, constructed env_unset)) /\
  exists r a w,
    RemoteWorkspace_teardown
      (self (constructed env_unset), world (constructed env_unset))
    = (r, (a, w)) /\
    teardown (constructed env_unset) =
      (r, {| world := w; environ := environ (constructed env_unset);
             self := a;
             trace := trace (constructed env_unset) ++ [CallBaseTeardown] |}).
Proof.
  split.
  - split; [exact demo_base_has_no_sandbox_attribute|].
    vm_compute. reflexivity.
  - apply (teardown_without_setup sdk config (start env_unset)
             (constructed env_unset)).
    + exact demo_base_has_no_sandbox_attribute.
    + vm_compute. reflexivity.
Defined.
End Witness.

(** * Further properties

    What the adapter does case by case: which SDKs let the module be
    imported, and how construction, setup and teardown end, and what they
    leave behind, for each way the provider can answer. *)

Section MoreProperties.
Context `{SdkOps}.

(** X1: the module can be imported exactly when daytona_sdk is installed
    and exports [DaytonaConfig] (line 7), [Daytona] (used by [__init__]
    only, but first in the guarded import) and the three types that the
    annotations of [Config] name.  [CreateSandboxParams] is the one name
    of the guarded import whose absence the module survives. *)
Theorem module_imports_iff sdk :
  (exists g, import_workspace_module sdk = Ok g) <->
  (exists exports, sdk = Some exports /\ exports_needed_to_import exports).
Proof.
  split.
  - intros [g Hg]. destruct sdk as [exports|]; [|discriminate Hg].
    exists exports. split; [reflexivity|].
    destruct (decide ("DaytonaConfig" ∈ exports));
      [|exfalso; revert Hg; py_import_run; discriminate].
    destruct (decide ("Daytona" ∈ exports));
      [|exfalso; revert Hg; py_import_run; discriminate].
    destruct (decide ("CodeLanguage" ∈ exports));
      [|exfalso; revert Hg; py_import_run; discriminate].
    destruct (decide ("SandboxTargetRegion" ∈ exports));
      [|exfalso; revert Hg; py_import_run; discriminate].
    destruct (decide ("SandboxResources" ∈ exports));
      [|exfalso; revert Hg; py_import_run; discriminate].
    repeat split; assumption.
  - intros (exports & -> & Hex).
    destruct (import_workspace_module_globals _ Hex) as (g & Hg & _).
    by exists g.
Qed.

(** *** Construction, case by case *)

(** X2: the guard of [__init__] is reached, and raises [ComposioSDKError]
    with the install message, on an SDK that exports every name the module
    needs except [CreateSandboxParams].  Nothing has been called by then:
    the trace is unchanged and the new object has no attribute. *)
Theorem guard_raises_without_CreateSandboxParams exports config st :
  exports_needed_to_import exports ->
  "CreateSandboxParams" ∉ exports ->
  new_DaytonaWorkspace (Some exports) config st
  = (Raise (ComposioSDKError missing_dependency_message),
     {| world := world st; environ := environ st; self := ∅;
        trace := trace st |}).
Proof.
  intros Hex Hno.
  destruct (import_workspace_module_globals _ Hex) as (g & Hg & Hflag & _).
  rewrite bool_decide_eq_false_2 in Hflag by assumption.
  py_run. reflexivity.
Qed.

(** X3: on a complete SDK, when the base class's [__init__], the client's
    constructor and the parameter constructor all return, construction
    succeeds; the object has the attributes the base class set, [daytona]
    and [daytona_create_sandbox_params], and exactly three calls have been
    made: the base [__init__], the client's constructor, the parameter
    constructor, in that order. *)
Theorem construction_succeeds exports config st a w c w' p w'' :
  exports_needed_to_import exports ->
  "CreateSandboxParams" ∈ exports ->
  RemoteWorkspace_init config (∅, world st) = (Ok tt, (a, w)) ->
  Daytona_init {| DaytonaConfig.api_key := Config.api_key config;
                  DaytonaConfig.server_url := "https://app.daytona.io/api" |} w
  = (Ok c, w') ->
  CreateSandboxParams_init
    {| CreateSandboxParams.language := Config.language config;
       CreateSandboxParams.id := Config.id config;
       CreateSandboxParams.name := Config.name config;
       CreateSandboxParams.image := Config.image config;
       CreateSandboxParams.env_vars := Config.env_vars config;
       CreateSandboxParams.labels := Config.labels config;
       CreateSandboxParams.public := Config.public config;
       CreateSandboxParams.target := Config.target config;
       CreateSandboxParams.resources := Config.resources config;
       CreateSandboxParams.auto_stop_interval :=
         Config.auto_stop_interval config |} w'
  = (Ok p, w'') ->
  new_DaytonaWorkspace (Some exports) config st
  = (Ok tt,
     {| world := w''; environ := environ st;
        self := <["daytona_create_sandbox_params" := VParams p]>
                  (<["daytona" := VClient c]> a);
        trace := trace st
                 ++ [CallBaseInit config;
                     CallDaytona
                       {| DaytonaConfig.api_key := Config.api_key config;
                          DaytonaConfig.server_url := "https://app.daytona.io/api" |};
                     CallCreateSandboxParams
                       {| CreateSandboxParams.language := Config.language config;
                          CreateSandboxParams.id := Config.id config;
                          CreateSandboxParams.name := Config.name config;
                          CreateSandboxParams.image := Config.image config;
                          CreateSandboxParams.env_vars := Config.env_vars config;
                          CreateSandboxParams.labels := Config.labels config;
                          CreateSandboxParams.public := Config.public config;
                          CreateSandboxParams.target := Config.target config;
                          CreateSandboxParams.resources := Config.resources config;
                          CreateSandboxParams.auto_stop_interval :=
                            Config.auto_stop_interval config |}] |}).
Proof.
  intros Hex Hyes Hbase Hclient Hparams.
  destruct (import_workspace_module_globals _ Hex)
    as (g & Hg & Hflag & HD & HDC & HP).
  rewrite bool_decide_eq_true_2 in Hflag by assumption.
  specialize (HP Hyes).
  py_run. cbn [negb truthy]. py_run. by rewrite <- !app_assoc.
Qed.

(** X4: when the base class's [__init__] raises, construction raises the
    same exception, no client has been asked for, and neither [daytona]
    nor [daytona_create_sandbox_params] has been set. *)
Theorem construction_base_init_fails exports config st e a w :
  exports_needed_to_import exports ->
  "CreateSandboxParams" ∈ exports ->
  RemoteWorkspace_init config (∅, world st) = (Raise e, (a, w)) ->
  new_DaytonaWorkspace (Some exports) config st
  = (Raise e,
     {| world := w; environ := environ st; self := a;
        trace := trace st ++ [CallBaseInit config] |}).
Proof.
  intros Hex Hyes Hbase.
  destruct (import_workspace_module_globals _ Hex) as (g & Hg & Hflag & _).
  rewrite bool_decide_eq_true_2 in Hflag by assumption.
  py_run. cbn [negb truthy]. py_run. reflexivity.
Qed.

(** X5: when the client's constructor raises, construction raises the same
    exception after the base [__init__] has run: the object keeps what the
    base class set and has gained neither attribute of the adapter. *)
Theorem construction_client_fails exports config st a w e w' :
  exports_needed_to_import exports ->
  "CreateSandboxParams" ∈ exports ->
  RemoteWorkspace_init config (∅, world st) = (Ok tt, (a, w)) ->
  Daytona_init {| DaytonaConfig.api_key := Config.api_key config;
                  DaytonaConfig.server_url := "https://app.daytona.io/api" |} w
  = (Raise e, w') ->
  new_DaytonaWorkspace (Some exports) config st
  = (Raise e,
     {| world := w'; environ := environ st; self := a;
        trace := trace st
                 ++ [CallBaseInit config;
                     CallDaytona
                       {| DaytonaConfig.api_key := Config.api_key config;
                          DaytonaConfig.server_url :=
                            "https://app.daytona.io/api" |}] |}).
Proof.
  intros Hex Hyes Hbase Hclient.
  destruct (import_workspace_module_globals _ Hex)
    as (g & Hg & Hflag & HD & HDC & _).
  rewrite bool_decide_eq_true_2 in Hflag by assumption.
  py_run. cbn [negb truthy]. py_run. by rewrite <- app_assoc.
Qed.

(** X18: when the vendor's parameter constructor raises, construction
    raises the same exception after the base [__init__] and the client's
    constructor have run: [daytona] is set,
    [daytona_create_sandbox_params] is not. *)
Theorem construction_params_fails exports config st a w c w' e w'' :
  exports_needed_to_import exports ->
  "CreateSandboxParams" ∈ exports ->
  RemoteWorkspace_init config (∅, world st) = (Ok tt, (a, w)) ->
  Daytona_init {| DaytonaConfig.api_key := Config.api_key config;
                  DaytonaConfig.server_url := "https://app.daytona.io/api" |} w
  = (Ok c, w') ->
  CreateSandboxParams_init
    {| CreateSandboxParams.language := Config.language config;
       CreateSandboxParams.id := Config.id config;
       CreateSandboxParams.name := Config.name config;
       CreateSandboxParams.image := Config.image config;
       CreateSandboxParams.env_vars := Config.env_vars config;
       CreateSandboxParams.labels := Config.labels config;
       CreateSandboxParams.public := Config.public config;
       CreateSandboxParams.target := Config.target config;
       CreateSandboxParams.resources := Config.resources config;
       CreateSandboxParams.auto_stop_interval :=
         Config.auto_stop_interval config |} w'
  = (Raise e, w'') ->
  new_DaytonaWorkspace (Some exports) config st
  = (Raise e,
     {| world := w''; environ := environ st;
        self := <["daytona" := VClient c]> a;
        trace := trace st
                 ++ [CallBaseInit config;
                     CallDaytona
                       {| DaytonaConfig.api_key := Config.api_key config;
                          DaytonaConfig.server_url := "https://app.daytona.io/api" |};
                     CallCreateSandboxParams
                       {| CreateSandboxParams.language := Config.language config;
                          CreateSandboxParams.id := Config.id config;
                          CreateSandboxParams.name := Config.name config;
                          CreateSandboxParams.image := Config.image config;
                          CreateSandboxParams.env_vars := Config.env_vars config;
                          CreateSandboxParams.labels := Config.labels config;
                          CreateSandboxParams.public := Config.public config;
                          CreateSandboxParams.target := Config.target config;
                          CreateSandboxParams.resources := Config.resources config;
                          CreateSandboxParams.auto_stop_interval :=
                            Config.auto_stop_interval config |}] |}).
Proof.
  intros Hex Hyes Hbase Hclient Hparams.
  destruct (import_workspace_module_globals _ Hex)
    as (g & Hg & Hflag & HD & HDC & HP).
  rewrite bool_decide_eq_true_2 in Hflag by assumption.
  specialize (HP Hyes).
  py_run. cbn [negb truthy]. py_run. by rewrite <- !app_assoc.
Qed.

(** X19: whatever the SDK and however construction ends, the only
    parameter object it asks the vendor for is one for the ten fields of
    the configuration; when construction succeeds that object was asked
    for, and [daytona_create_sandbox_params] holds what the vendor
    returned. *)
Theorem init_params_only_from_config sdk config st r st' :
  new_DaytonaWorkspace sdk config st = (r, st') ->
  let kwargs :=
    {| CreateSandboxParams.language := Config.language config;
       CreateSandboxParams.id := Config.id config;
       CreateSandboxParams.name := Config.name config;
       CreateSandboxParams.image := Config.image config;
       CreateSandboxParams.env_vars := Config.env_vars config;
       CreateSandboxParams.labels := Config.labels config;
       CreateSandboxParams.public := Config.public config;
       CreateSandboxParams.target := Config.target config;
       CreateSandboxParams.resources := Config.resources config;
       CreateSandboxParams.auto_stop_interval :=
         Config.auto_stop_interval config |} in
  exists calls,
    trace st' = trace st ++ calls /\
    (forall k, CallCreateSandboxParams k ∈ calls -> k = kwargs) /\
    (r = Ok tt ->
     exists p w w',
       CreateSandboxParams_init kwargs w = (Ok p, w') /\
       CallCreateSandboxParams kwargs ∈ calls /\
       self st' !! "daytona_create_sandbox_params" = Some (VParams p)).
Proof.
  intros Hnew kwargs. subst kwargs.
  py_invert Hnew; injection Hnew as <- <-;
    (eexists; split; [py_trace|]; split;
     [ intros k Hin; py_elem Hin; congruence
     | intros Hr; try discriminate Hr ]).
  do 3 eexists. split; [eassumption|]. split.
  - do 2 (apply elem_of_cons; right). apply elem_of_cons. by left.
  - cbn [self]. apply lookup_insert_eq.
Qed.

(** *** Setup, case by case *)

(** X6: when the create call raises, setup raises the same exception and
    leaves every attribute as it was: no handle, URL, host or port list is
    stored, and the create call is the only call made. *)
Theorem setup_create_fails st c p e w :
  self st !! "daytona" = Some (VClient c) ->
  self st !! "daytona_create_sandbox_params" = Some p ->
  Daytona_create c p (world st) = (Raise e, w) ->
  setup st
  = (Raise e,
     {| world := w; environ := environ st; self := self st;
        trace := trace st ++ [CallCreate c p] |}).
Proof. intros Hc Hp Hcreate. py_run. reflexivity. Qed.

(** X7: when the preview-link request raises, setup raises the same
    exception with the workspace half set up: [daytona_sandbox] and [url]
    are stored, [host] and [ports] are as before, no wait has been issued,
    and the sandbox that was created is not removed. *)
Theorem setup_preview_link_fails st c p sb w1 e w2 :
  self st !! "daytona" = Some (VClient c) ->
  self st !! "daytona_create_sandbox_params" = Some p ->
  Daytona_create c p (world st) = (Ok sb, w1) ->
  Sandbox_get_preview_link sb 8000 w1 = (Raise e, w2) ->
  setup st
  = (Raise e,
     {| world := w2; environ := environ st;
        self := <["url" := VStr (Daytona_server_url c +:+ "/toolbox/"
                                 +:+ Sandbox_id sb +:+ "/toolbox")]>
                  (<["daytona_sandbox" := VSandbox sb]> (self st));
        trace := trace st ++ [CallCreate c p; CallPreviewLink sb 8000] |}).
Proof.
  intros Hc Hp Hcreate Hlink.
  py_run. unfold TOOLSERVER_PORT. rewrite Hlink.
  by rewrite insert_insert_eq, <- app_assoc.
Qed.

(** X8: when the wait for the sandbox to start raises, setup raises the
    same exception, but all four attributes are already set: the handle,
    the URL, the host and the empty port list; the sandbox is not
    removed. *)
Theorem setup_wait_fails st c p sb w1 link w2 t e w3 :
  self st !! "daytona" = Some (VClient c) ->
  self st !! "daytona_create_sandbox_params" = Some p ->
  Daytona_create c p (world st) = (Ok sb, w1) ->
  Sandbox_get_preview_link sb 8000 w1 = (Ok link, w2) ->
  match environ st !! "WORKSPACE_WAIT_TIMEOUT" with
  | Some s => float_of_str s = Some t
  | None => t = float_60
  end ->
  Sandbox_wait_for_sandbox_start sb t w2 = (Raise e, w3) ->
  exists st',
    setup st = (Raise e, st') /\
    self st' !! "daytona_sandbox" = Some (VSandbox sb) /\
    self st' !! "url"
    = Some (VStr (Daytona_server_url c +:+ "/toolbox/" +:+ Sandbox_id sb
                  +:+ "/toolbox")) /\
    self st' !! "host" = Some (VStr link) /\
    self st' !! "ports" = Some (VList []) /\
    trace st' = trace st ++ [CallCreate c p; CallPreviewLink sb 8000;
                             CallWaitStart sb t].
Proof.
  intros Hc Hp Hcreate Hlink Ht Hwait.
  eexists. split.
  - py_run. unfold TOOLSERVER_PORT. rewrite Hlink. py_run.
    destruct (environ st !! "WORKSPACE_WAIT_TIMEOUT") as [s|];
      [rewrite Ht | rewrite <- Ht]; py_run; reflexivity.
  - cbn [self trace].
    repeat split;
      try (by py_lookups).
    by rewrite <- !app_assoc.
Qed.

(** X9: on a constructed workspace, when the create call, the preview-link
    request for port 8000 and the wait (with the timeout of the
    environment, or 60.0) all return, setup succeeds; it changes the four
    attributes and nothing else, and makes those three calls in that
    order. *)
Theorem setup_succeeds st c p sb w1 link w2 t w3 :
  self st !! "daytona" = Some (VClient c) ->
  self st !! "daytona_create_sandbox_params" = Some p ->
  Daytona_create c p (world st) = (Ok sb, w1) ->
  Sandbox_get_preview_link sb 8000 w1 = (Ok link, w2) ->
  match environ st !! "WORKSPACE_WAIT_TIMEOUT" with
  | Some s => float_of_str s = Some t
  | None => t = float_60
  end ->
  Sandbox_wait_for_sandbox_start sb t w2 = (Ok tt, w3) ->
  setup st
  = (Ok tt,
     {| world := w3; environ := environ st;
        self :=
          <["ports" := VList []]>
            (<["host" := VStr link]>
               (<["url" := VStr (Daytona_server_url c +:+ "/toolbox/"
                                 +:+ Sandbox_id sb +:+ "/toolbox")]>
                  (<["daytona_sandbox" := VSandbox sb]> (self st))));
        trace := trace st ++ [CallCreate c p; CallPreviewLink sb 8000;
                              CallWaitStart sb t] |}).
Proof.
  intros Hc Hp Hcreate Hlink Ht Hwait.
  py_run. unfold TOOLSERVER_PORT. rewrite Hlink. py_run.
  destruct (environ st !! "WORKSPACE_WAIT_TIMEOUT") as [s|];
    [rewrite Ht | rewrite <- Ht]; py_run;
    by rewrite insert_insert_eq, <- !app_assoc.
Qed.

(** X10: however setup ends, the calls it has made are a prefix of: create,
    preview link for port 8000, wait for start, the last two on one and
    the same sandbox.  In particular setup never removes a sandbox and
    never calls the base class. *)
Theorem setup_call_sequence st r st' :
  setup st = (r, st') ->
  exists calls,
    trace st' = trace st ++ calls /\
    (calls = [] \/
     (exists c p, calls = [CallCreate c p]) \/
     (exists c p sb, calls = [CallCreate c p; CallPreviewLink sb 8000]) \/
     (exists c p sb t,
         calls = [CallCreate c p; CallPreviewLink sb 8000;
                  CallWaitStart sb t])).
Proof.
  intros Hsetup.
  py_invert Hsetup; injection Hsetup as <- <-;
    (eexists; split; [py_trace|]);
    first [ left; reflexivity
          | right; left; do 2 eexists; reflexivity
          | right; right; left; do 3 eexists; reflexivity
          | right; right; right; do 4 eexists; reflexivity ].
Qed.

(** X11: however setup ends, it has written no attribute other than
    [daytona_sandbox], [url], [host] and [ports]; the client and the
    parameter bag, in particular, are as construction left them. *)
Theorem setup_keeps_other_attributes st r st' n :
  setup st = (r, st') ->
  n <> "daytona_sandbox" -> n <> "url" -> n <> "host" -> n <> "ports" ->
  self st' !! n = self st !! n.
Proof.
  intros Hsetup ????.
  py_invert Hsetup; injection Hsetup as <- <-; cbn [self];
    by rewrite ?lookup_insert_ne.
Qed.

(** X12: construction followed by setup: the first call setup makes is the
    create call, on the client that construction stored, with the
    parameter object that the vendor built from the ten fields of the
    configuration. *)
Theorem construction_then_setup_creates_from_config sdk config st0 st1 r st2 :
  new_DaytonaWorkspace sdk config st0 = (Ok tt, st1) ->
  setup st1 = (r, st2) ->
  exists c p w w' rest,
    CreateSandboxParams_init
      {| CreateSandboxParams.language := Config.language config;
         CreateSandboxParams.id := Config.id config;
         CreateSandboxParams.name := Config.name config;
         CreateSandboxParams.image := Config.image config;
         CreateSandboxParams.env_vars := Config.env_vars config;
         CreateSandboxParams.labels := Config.labels config;
         CreateSandboxParams.public := Config.public config;
         CreateSandboxParams.target := Config.target config;
         CreateSandboxParams.resources := Config.resources config;
         CreateSandboxParams.auto_stop_interval :=
           Config.auto_stop_interval config |} w
    = (Ok p, w') /\
    self st1 !! "daytona" = Some (VClient c) /\
    self st1 !! "daytona_create_sandbox_params" = Some (VParams p) /\
    trace st2 = trace st1 ++ CallCreate c (VParams p) :: rest.
Proof.
  intros Hnew Hsetup.
  destruct (new_DaytonaWorkspace_Ok _ _ _ _ Hnew)
    as (a & w & c & w' & dc & kwargs & p & w'' & _ & _ & _ & -> & Hp & ->).
  exists c, p, w', w''.
  py_invert Hsetup; injection Hsetup as <- <-; cbn [self trace];
    (eexists; split; [exact Hp|]; split;
     [ rewrite lookup_insert_ne by discriminate; apply lookup_insert_eq
     | split; [ apply lookup_insert_eq
              | rewrite <- ?app_assoc; reflexivity ] ]).
Qed.

(** X13: setup run twice creates two sandboxes from the same client and
    the same parameter bag; [daytona_sandbox] ends as the second handle,
    and the first sandbox is not removed in between. *)
Theorem setup_twice_replaces_handle st st1 st2 :
  setup st = (Ok tt, st1) ->
  setup st1 = (Ok tt, st2) ->
  exists c p sb1 sb2 t1 t2,
    self st !! "daytona" = Some (VClient c) /\
    self st !! "daytona_create_sandbox_params" = Some p /\
    self st1 !! "daytona_sandbox" = Some (VSandbox sb1) /\
    self st2 !! "daytona_sandbox" = Some (VSandbox sb2) /\
    trace st2
    = trace st
      ++ [CallCreate c p; CallPreviewLink sb1 8000; CallWaitStart sb1 t1;
          CallCreate c p; CallPreviewLink sb2 8000; CallWaitStart sb2 t2].
Proof.
  intros Hfirst Hsecond.
  destruct (setup_Ok _ _ Hfirst)
    as (c & p & sb1 & w1 & l1 & w2 & t1 & w3 & Hc & Hp & _ & _ & _ & _ & Hst1).
  destruct (setup_Ok _ _ Hsecond)
    as (c' & p' & sb2 & w4 & l2 & w5 & t2 & w6 & Hc' & Hp' & _ & _ & _ & _ & ->).
  subst st1. cbn [self trace] in *.
  rewrite !lookup_insert_ne in Hc', Hp' by discriminate.
  assert (c' = c) as -> by congruence.
  assert (p' = p) as -> by congruence.
  exists c, p, sb1, sb2, t1, t2.
  split; [assumption|]. split; [assumption|].
  split; [by py_lookups|].
  split; [by py_lookups|].
  by rewrite <- app_assoc.
Qed.

(** *** Teardown, case by case *)

(** X14: when the base class's teardown raises, teardown raises the same
    exception and the provider is not asked to remove anything. *)
Theorem teardown_base_failure st e a w :
  RemoteWorkspace_teardown (self st, world st) = (Raise e, (a, w)) ->
  teardown st
  = (Raise e,
     {| world := w; environ := environ st; self := a;
        trace := trace st ++ [CallBaseTeardown] |}).
Proof. intros Hbase. py_run. reflexivity. Qed.

(** X15: the removal of line 118 runs when the object has an attribute
    called [sandbox], whatever it holds: the provider is then asked to
    remove the value of [daytona_sandbox], after the base teardown, and
    teardown ends as that request ends. *)
Theorem teardown_removes_with_sandbox_attribute st a w v h c r w' :
  RemoteWorkspace_teardown (self st, world st) = (Ok tt, (a, w)) ->
  a !! "sandbox" = Some v ->
  a !! "daytona_sandbox" = Some h ->
  h <> VNone ->
  a !! "daytona" = Some (VClient c) ->
  Daytona_remove c h w = (r, w') ->
  teardown st
  = (r,
     {| world := w'; environ := environ st; self := a;
        trace := trace st ++ [CallBaseTeardown; CallRemove c h] |}).
Proof.
  intros Hbase Hattr Hhandle Hnot Hclient Hremove.
  py_run. rewrite bool_decide_eq_true_2 by eauto.
  py_run. assert (is_not_None h = true) as -> by (by destruct h).
  py_run. by rewrite <- app_assoc.
Qed.

(** X16: on an object that has an attribute [sandbox] but on which setup
    never stored a handle, teardown raises [AttributeError] for
    [daytona_sandbox], after the base teardown and without a removal: the
    [hasattr] test of line 117 does not protect the read next to it. *)
Theorem teardown_sandbox_attribute_without_handle st a w v :
  RemoteWorkspace_teardown (self st, world st) = (Ok tt, (a, w)) ->
  a !! "sandbox" = Some v ->
  a !! "daytona_sandbox" = None ->
  teardown st
  = (Raise (AttributeError "daytona_sandbox"),
     {| world := w; environ := environ st; self := a;
        trace := trace st ++ [CallBaseTeardown] |}).
Proof.
  intros Hbase Hattr Hhandle.
  py_run. rewrite bool_decide_eq_true_2 by eauto.
  py_run. reflexivity.
Qed.

(** X17: when [daytona_sandbox] is [None], teardown ends after the base
    teardown without asking the provider for anything, even on an object
    that has an attribute [sandbox]. *)
Theorem teardown_handle_None st a w v :
  RemoteWorkspace_teardown (self st, world st) = (Ok tt, (a, w)) ->
  a !! "sandbox" = Some v ->
  a !! "daytona_sandbox" = Some VNone ->
  teardown st
  = (Ok tt,
     {| world := w; environ := environ st; self := a;
        trace := trace st ++ [CallBaseTeardown] |}).
Proof.
  intros Hbase Hattr Hhandle.
  py_run. rewrite bool_decide_eq_true_2 by eauto.
  py_run. reflexivity.
Qed.
End MoreProperties.


(** ** A provider that fails on demand

    The concrete provider of [Demo], with one operation made to raise. *)

Module Faulty.
#[local] Existing Instance Demo.types.

Inductive Fault :=
| FailBaseInit
| FailClient
| FailParams
| FailCreate
| FailLink
| FailWait
| FailBaseTeardown.

Definition ops (f : Fault) : SdkOps :=
  {| float_of_str := Demo.parse_seconds;
     Daytona_init := fun config w =>
       match f with
       | FailClient => (Raise (ForeignError "no client"), w)
       | _ => (Ok config, w)
       end;
     Daytona_server_url := DaytonaConfig.server_url;
     CreateSandboxParams_init := fun kwargs w =>
       match f with
       | FailParams => (Raise (ForeignError "validation error"), w)
       | _ => (Ok (CreateSandboxParams.id kwargs), w)
       end;
     Daytona_create := fun _ params w =>
       match f, params with
       | FailCreate, _ => (Raise (ForeignError "quota exceeded"), w)
       | _, VParams p => (Ok (default "sandbox" p), S w)
       | _, _ => (Raise (ForeignError "bad params"), w)
       end;
     Daytona_remove := fun _ _ w => (Ok tt, pred w);
     Sandbox_id := fun s => s;
     Sandbox_get_preview_link := fun s port w =>
       match f with
       | FailLink => (Raise (ForeignError "no preview"), w)
       | _ => (Ok (if Z.eqb port 8000 then "https://8000-" +:+ s else s), w)
       end;
     Sandbox_wait_for_sandbox_start := fun _ _ w =>
       match f with
       | FailWait => (Raise (ForeignError "timed out"), w)
       | _ => (Ok tt, w)
       end;
     RemoteWorkspace_init := fun _ '(a, w) =>
       match f with
       | FailBaseInit => (Raise (ForeignError "base init failed"), (a, w))
       | _ =>
           (Ok tt,
            (<["host" := VStr "localhost"]> (<["ports" := VList []]> a), w))
       end;
     RemoteWorkspace_teardown := fun '(a, w) =>
       match f with
       | FailBaseTeardown =>
           (Raise (ForeignError "base teardown failed"), (a, w))
       | _ => (Ok tt, (a, w))
       end |}.

Definition client : DaytonaConfig.t :=
  {| DaytonaConfig.api_key := Some "key";
     DaytonaConfig.server_url := "https://app.daytona.io/api" |}.

(** The keyword arguments construction builds from [Demo.config], and the
    object the provider returns for them. *)
Definition kwargs : CreateSandboxParams.t :=
  {| CreateSandboxParams.language := Some "python";
     CreateSandboxParams.id := Some "sb1";
     CreateSandboxParams.name := None;
     CreateSandboxParams.image := Some "debian";
     CreateSandboxParams.env_vars := Some {[ "A" := "1" ]};
     CreateSandboxParams.labels := None;
     CreateSandboxParams.public := Some false;
     CreateSandboxParams.target := None;
     CreateSandboxParams.resources := Some 2;
     CreateSandboxParams.auto_stop_interval := Some 0 |}.

Definition params : Val := VParams (Some "sb1").

(** A constructed workspace: the state every provider above reaches when
    construction succeeds. *)
Definition constructed : State :=
  {| world := 0%nat; environ := ∅;
     self := <["daytona_create_sandbox_params" := params]>
               (<["daytona" := VClient client]> Demo.base_attrs);
     trace := [CallBaseInit Demo.config; CallDaytona client;
               CallCreateSandboxParams kwargs] |}.

(** That workspace after a setup that succeeded. *)
Definition ready : State :=
  {| world := 1%nat; environ := ∅;
     self :=
       <["ports" := VList []]>
         (<["host" := VStr "https://8000-sb1"]>
            (<["url" := VStr "https://app.daytona.io/api/toolbox/sb1/toolbox"]>
               (<["daytona_sandbox" := VSandbox "sb1"]> (self constructed))));
     trace := trace constructed
              ++ [CallCreate client params; CallPreviewLink "sb1" 8000;
                  CallWaitStart "sb1" 60%float] |}.

(** An exception of the provider. *)
Definition err (msg : string) : exn := @ForeignError Demo.types msg.

(** The handle of the sandbox the provider creates for [params]. *)
Definition sb1 : Sandbox := "sb1".

(** A value for an attribute set from outside the class. *)
Definition marker : Val := @VBase Demo.types true.

(** The same workspace with some other attributes set by hand. *)
Definition with_attrs (l : list (string * Val)) (st : State) : State :=
  {| world := world st; environ := environ st;
     self := foldr (fun '(n, v) a => <[n := v]> a) (self st) l;
     trace := trace st |}.
End Faulty.

(** ** The further theorems at work on concrete providers *)

Module MoreWitness.
Import Faulty.
Import Demo(exports, old_exports, base_attrs).
#[local] Existing Instance Demo.types.

Section Sound.
#[local] Existing Instance Demo.ops.

Lemma guard_raises_without_CreateSandboxParams_witness :
  (exports_needed_to_import old_exports /\
   "CreateSandboxParams" ∉ old_exports) /\
  new_DaytonaWorkspace (Some old_exports) Demo.config (Demo.start ∅)
  = (Raise (ComposioSDKError missing_dependency_message),
     {| world := world (Demo.start ∅); environ := environ (Demo.start ∅);
        self := ∅; trace := trace (Demo.start ∅) |}).
Proof.
  split; [split; [exact Witness.old_exports_complete|exact Witness.old_exports_lacks_params]|].
  apply (guard_raises_without_CreateSandboxParams old_exports Demo.config
           (Demo.start ∅)).
  - exact Witness.old_exports_complete.
  - exact Witness.old_exports_lacks_params.
Defined.

Lemma construction_succeeds_witness :
  (exports_needed_to_import exports /\
   "CreateSandboxParams" ∈ exports /\
   RemoteWorkspace_init Demo.config (∅, world (Demo.start ∅))
   = (Ok tt, (base_attrs, 0%nat)) /\
   Daytona_init client 0%nat = (Ok client, 0%nat) /\
   CreateSandboxParams_init kwargs 0%nat = (Ok (Some "sb1"), 0%nat)) /\
  new_DaytonaWorkspace (Some exports) Demo.config (Demo.start ∅)
  = (Ok tt, constructed).
Proof.
  split.
  - split; [exact Witness.exports_complete|].
    split; [exact Witness.exports_has_params|].
    repeat split; reflexivity.
  - apply (construction_succeeds exports Demo.config (Demo.start ∅)
             base_attrs 0%nat client 0%nat (Some "sb1") 0%nat).
    + exact Witness.exports_complete.
    + exact Witness.exports_has_params.
    + reflexivity.
    + reflexivity.
    + reflexivity.
Defined.

Lemma init_params_only_from_config_witness :
  new_DaytonaWorkspace (Some exports) Demo.config (Demo.start ∅)
  = (Ok tt, constructed) /\
  exists calls,
    trace constructed = trace (Demo.start ∅) ++ calls /\
    (forall k, CallCreateSandboxParams k ∈ calls -> k = kwargs) /\
    (Ok tt = Ok tt ->
     exists p w w',
       CreateSandboxParams_init kwargs w = (Ok p, w') /\
       CallCreateSandboxParams kwargs ∈ calls /\
       self constructed !! "daytona_create_sandbox_params"
       = Some (VParams p)).
Proof.
  split; [vm_compute; reflexivity|].
  apply (init_params_only_from_config (Some exports) Demo.config
           (Demo.start ∅) (Ok tt) constructed).
  vm_compute. reflexivity.
Defined.

Lemma setup_succeeds_witness :
  (self constructed !! "daytona" = Some (VClient client) /\
   self constructed !! "daytona_create_sandbox_params" = Some params /\
   Daytona_create client params (world constructed) = (Ok "sb1", 1%nat) /\
   Sandbox_get_preview_link "sb1" 8000 1%nat
   = (Ok "https://8000-sb1", 1%nat) /\
   match environ constructed !! "WORKSPACE_WAIT_TIMEOUT" with
   | Some s => float_of_str s = Some 60%float
   | None => 60%float = float_60
   end /\
   Sandbox_wait_for_sandbox_start "sb1" 60%float 1%nat = (Ok tt, 1%nat)) /\
  setup constructed
  = (Ok tt,
     {| world := 1%nat; environ := environ constructed;
        self :=
          <["ports" := VList []]>
            (<["host" := VStr "https://8000-sb1"]>
               (<["url" := VStr (Daytona_server_url client +:+ "/toolbox/"
                                 +:+ Sandbox_id "sb1" +:+ "/toolbox")]>
                  (<["daytona_sandbox" := VSandbox sb1]>
                     (self constructed))));
        trace := trace constructed
                 ++ [CallCreate client params; CallPreviewLink "sb1" 8000;
                     CallWaitStart "sb1" 60%float] |}).
Proof.
  split; [repeat split; vm_compute; reflexivity|].
  apply (setup_succeeds constructed client params "sb1" 1%nat
           "https://8000-sb1" 1%nat 60%float 1%nat);
    vm_compute; reflexivity.
Defined.

Lemma setup_call_sequence_witness :
  setup constructed = (Ok tt, ready) /\
  exists calls,
    trace ready = trace constructed ++ calls /\
    (calls = [] \/
     (exists c p, calls = [CallCreate c p]) \/
     (exists c p sb, calls = [CallCreate c p; CallPreviewLink sb 8000]) \/
     (exists c p sb t,
         calls = [CallCreate c p; CallPreviewLink sb 8000;
                  CallWaitStart sb t])).
Proof.
  split; [vm_compute; reflexivity|].
  apply (setup_call_sequence constructed (Ok tt) ready).
  vm_compute. reflexivity.
Defined.

Lemma setup_keeps_other_attributes_witness :
  (setup constructed = (Ok tt, ready) /\
   "daytona" <> "daytona_sandbox" /\ "daytona" <> "url" /\
   "daytona" <> "host" /\ "daytona" <> "ports") /\
  self ready !! "daytona" = self constructed !! "daytona".
Proof.
  split; [split; [vm_compute; reflexivity | repeat split; discriminate]|].
  apply (setup_keeps_other_attributes constructed (Ok tt) ready "daytona");
    [vm_compute; reflexivity | discriminate..].
Defined.

Lemma construction_then_setup_creates_from_config_witness :
  (new_DaytonaWorkspace (Some exports) Demo.config (Demo.start ∅)
   = (Ok tt, constructed) /\
   setup constructed = (Ok tt, ready)) /\
  exists c p w w' rest,
    CreateSandboxParams_init kwargs w = (Ok p, w') /\
    self constructed !! "daytona" = Some (VClient c) /\
    self constructed !! "daytona_create_sandbox_params" = Some (VParams p) /\
    trace ready = trace constructed ++ CallCreate c (VParams p) :: rest.
Proof.
  split; [split; vm_compute; reflexivity|].
  apply (construction_then_setup_creates_from_config (Some exports)
           Demo.config (Demo.start ∅) constructed (Ok tt) ready);
    vm_compute; reflexivity.
Defined.

Lemma setup_twice_replaces_handle_witness :
  (setup constructed = (Ok tt, ready) /\
   setup ready = (Ok tt, snd (setup ready))) /\
  exists c p sb1 sb2 t1 t2,
    self constructed !! "daytona" = Some (VClient c) /\
    self constructed !! "daytona_create_sandbox_params" = Some p /\
    self ready !! "daytona_sandbox" = Some (VSandbox sb1) /\
    self (snd (setup ready)) !! "daytona_sandbox" = Some (VSandbox sb2) /\
    trace (snd (setup ready))
    = trace constructed
      ++ [CallCreate c p; CallPreviewLink sb1 8000; CallWaitStart sb1 t1;
          CallCreate c p; CallPreviewLink sb2 8000; CallWaitStart sb2 t2].
Proof.
  split; [split; vm_compute; reflexivity|].
  apply (setup_twice_replaces_handle constructed ready (snd (setup ready)));
    vm_compute; reflexivity.
Defined.

Lemma teardown_removes_with_sandbox_attribute_witness :
  let st := with_attrs [("sandbox", marker)] ready in
  (RemoteWorkspace_teardown (self st, world st) = (Ok tt, (self st, 1%nat)) /\
   self st !! "sandbox" = Some (marker) /\
   self st !! "daytona_sandbox" = Some (VSandbox sb1) /\
   VSandbox sb1 <> VNone /\
   self st !! "daytona" = Some (VClient client) /\
   Daytona_remove client (VSandbox sb1) 1%nat = (Ok tt, 0%nat)) /\
  teardown st
  = (Ok tt,
     {| world := 0%nat; environ := environ st; self := self st;
        trace := trace st
                 ++ [CallBaseTeardown;
                     CallRemove client (VSandbox sb1)] |}).
Proof.
  intros st. split.
  - repeat split; try discriminate; vm_compute; reflexivity.
  - apply (teardown_removes_with_sandbox_attribute st (self st) 1%nat
             (marker) (VSandbox sb1) client (Ok tt) 0%nat);
      try discriminate; vm_compute; reflexivity.
Defined.

Lemma teardown_sandbox_attribute_without_handle_witness :
  let st := with_attrs [("sandbox", marker)] constructed in
  (RemoteWorkspace_teardown (self st, world st) = (Ok tt, (self st, 0%nat)) /\
   self st !! "sandbox" = Some (marker) /\
   self st !! "daytona_sandbox" = None) /\
  teardown st
  = (Raise (AttributeError "daytona_sandbox"),
     {| world := 0%nat; environ := environ st; self := self st;
        trace := trace st ++ [CallBaseTeardown] |}).
Proof.
  intros st. split.
  - repeat split; vm_compute; reflexivity.
  - apply (teardown_sandbox_attribute_without_handle st (self st) 0%nat
             (marker));
      vm_compute; reflexivity.
Defined.

Lemma teardown_handle_None_witness :
  let st := with_attrs [("sandbox", marker); ("daytona_sandbox", VNone)]
              constructed in
  (RemoteWorkspace_teardown (self st, world st) = (Ok tt, (self st, 0%nat)) /\
   self st !! "sandbox" = Some (marker) /\
   self st !! "daytona_sandbox" = Some VNone) /\
  teardown st
  = (Ok tt,
     {| world := 0%nat; environ := environ st; self := self st;
        trace := trace st ++ [CallBaseTeardown] |}).
Proof.
  intros st. split.
  - repeat split; vm_compute; reflexivity.
  - apply (teardown_handle_None st (self st) 0%nat (marker));
      vm_compute; reflexivity.
Defined.
End Sound.

Section BaseInitFails.
#[local] Instance base_init_fails : SdkOps := ops FailBaseInit.

Lemma construction_base_init_fails_witness :
  (exports_needed_to_import exports /\
   "CreateSandboxParams" ∈ exports /\
   RemoteWorkspace_init Demo.config (∅, world (Demo.start ∅))
   = (Raise (err "base init failed"), (∅, 0%nat))) /\
  new_DaytonaWorkspace (Some exports) Demo.config (Demo.start ∅)
  = (Raise (err "base init failed"),
     {| world := 0%nat; environ := environ (Demo.start ∅); self := ∅;
        trace := trace (Demo.start ∅) ++ [CallBaseInit Demo.config] |}).
Proof.
  split.
  - split; [exact Witness.exports_complete|]. split; [exact Witness.exports_has_params|].
    reflexivity.
  - apply (construction_base_init_fails exports Demo.config (Demo.start ∅)
             (err "base init failed") ∅ 0%nat).
    + exact Witness.exports_complete.
    + exact Witness.exports_has_params.
    + reflexivity.
Defined.
End BaseInitFails.

Section ClientFails.
#[local] Instance client_fails : SdkOps := ops FailClient.

Lemma construction_client_fails_witness :
  (exports_needed_to_import exports /\
   "CreateSandboxParams" ∈ exports /\
   RemoteWorkspace_init Demo.config (∅, world (Demo.start ∅))
   = (Ok tt, (base_attrs, 0%nat)) /\
   Daytona_init client 0%nat = (Raise (err "no client"), 0%nat)) /\
  new_DaytonaWorkspace (Some exports) Demo.config (Demo.start ∅)
  = (Raise (err "no client"),
     {| world := 0%nat; environ := environ (Demo.start ∅);
        self := base_attrs;
        trace := trace (Demo.start ∅)
                 ++ [CallBaseInit Demo.config; CallDaytona client] |}).
Proof.
  split.
  - split; [exact Witness.exports_complete|]. split; [exact Witness.exports_has_params|].
    split; reflexivity.
  - apply (construction_client_fails exports Demo.config (Demo.start ∅)
             base_attrs 0%nat (err "no client") 0%nat).
    + exact Witness.exports_complete.
    + exact Witness.exports_has_params.
    + reflexivity.
    + reflexivity.
Defined.
End ClientFails.

Section ParamsFails.
#[local] Instance params_fails : SdkOps := ops FailParams.

Lemma construction_params_fails_witness :
  (exports_needed_to_import exports /\
   "CreateSandboxParams" ∈ exports /\
   RemoteWorkspace_init Demo.config (∅, world (Demo.start ∅))
   = (Ok tt, (base_attrs, 0%nat)) /\
   Daytona_init client 0%nat = (Ok client, 0%nat) /\
   CreateSandboxParams_init kwargs 0%nat
   = (Raise (err "validation error"), 0%nat)) /\
  new_DaytonaWorkspace (Some exports) Demo.config (Demo.start ∅)
  = (Raise (err "validation error"),
     {| world := 0%nat; environ := environ (Demo.start ∅);
        self := <["daytona" := VClient client]> base_attrs;
        trace := trace (Demo.start ∅)
                 ++ [CallBaseInit Demo.config; CallDaytona client;
                     CallCreateSandboxParams kwargs] |}).
Proof.
  split.
  - split; [exact Witness.exports_complete|].
    split; [exact Witness.exports_has_params|].
    repeat split; reflexivity.
  - apply (construction_params_fails exports Demo.config (Demo.start ∅)
             base_attrs 0%nat client 0%nat (err "validation error") 0%nat).
    + exact Witness.exports_complete.
    + exact Witness.exports_has_params.
    + reflexivity.
    + reflexivity.
    + reflexivity.
Defined.
End ParamsFails.

Section CreateFails.
#[local] Instance create_fails : SdkOps := ops FailCreate.

Lemma setup_create_fails_witness :
  (self constructed !! "daytona" = Some (VClient client) /\
   self constructed !! "daytona_create_sandbox_params" = Some params /\
   Daytona_create client params (world constructed)
   = (Raise (err "quota exceeded"), 0%nat)) /\
  setup constructed
  = (Raise (err "quota exceeded"),
     {| world := 0%nat; environ := environ constructed;
        self := self constructed;
        trace := trace constructed ++ [CallCreate client params] |}).
Proof.
  split; [repeat split; vm_compute; reflexivity|].
  apply (setup_create_fails constructed client params
           (err "quota exceeded") 0%nat);
    vm_compute; reflexivity.
Defined.
End CreateFails.

Section LinkFails.
#[local] Instance link_fails : SdkOps := ops FailLink.

Lemma setup_preview_link_fails_witness :
  (self constructed !! "daytona" = Some (VClient client) /\
   self constructed !! "daytona_create_sandbox_params" = Some params /\
   Daytona_create client params (world constructed) = (Ok "sb1", 1%nat) /\
   Sandbox_get_preview_link "sb1" 8000 1%nat
   = (Raise (err "no preview"), 1%nat)) /\
  setup constructed
  = (Raise (err "no preview"),
     {| world := 1%nat; environ := environ constructed;
        self := <["url" := VStr (Daytona_server_url client +:+ "/toolbox/"
                                 +:+ Sandbox_id "sb1" +:+ "/toolbox")]>
                  (<["daytona_sandbox" := VSandbox sb1]>
                     (self constructed));
        trace := trace constructed
                 ++ [CallCreate client params;
                     CallPreviewLink "sb1" 8000] |}).
Proof.
  split; [repeat split; vm_compute; reflexivity|].
  apply (setup_preview_link_fails constructed client params "sb1" 1%nat
           (err "no preview") 1%nat);
    vm_compute; reflexivity.
Defined.
End LinkFails.

Section WaitFails.
#[local] Instance wait_fails : SdkOps := ops FailWait.

Lemma setup_wait_fails_witness :
  (self constructed !! "daytona" = Some (VClient client) /\
   self constructed !! "daytona_create_sandbox_params" = Some params /\
   Daytona_create client params (world constructed) = (Ok "sb1", 1%nat) /\
   Sandbox_get_preview_link "sb1" 8000 1%nat
   = (Ok "https://8000-sb1", 1%nat) /\
   match environ constructed !! "WORKSPACE_WAIT_TIMEOUT" with
   | Some s => float_of_str s = Some 60%float
   | None => 60%float = float_60
   end /\
   Sandbox_wait_for_sandbox_start "sb1" 60%float 1%nat
   = (Raise (err "timed out"), 1%nat)) /\
  exists st',
    setup constructed = (Raise (err "timed out"), st') /\
    self st' !! "daytona_sandbox" = Some (VSandbox sb1) /\
    self st' !! "url"
    = Some (VStr (Daytona_server_url client +:+ "/toolbox/"
                  +:+ Sandbox_id "sb1" +:+ "/toolbox")) /\
    self st' !! "host" = Some (VStr "https://8000-sb1") /\
    self st' !! "ports" = Some (VList []) /\
    trace st' = trace constructed
                ++ [CallCreate client params; CallPreviewLink "sb1" 8000;
                    CallWaitStart "sb1" 60%float].
Proof.
  split; [repeat split; vm_compute; reflexivity|].
  apply (setup_wait_fails constructed client params "sb1" 1%nat
           "https://8000-sb1" 1%nat 60%float (err "timed out") 1%nat);
    vm_compute; reflexivity.
Defined.
End WaitFails.

Section BaseTeardownFails.
#[local] Instance base_teardown_fails : SdkOps := ops FailBaseTeardown.

Lemma teardown_base_failure_witness :
  RemoteWorkspace_teardown (self ready, world ready)
  = (Raise (err "base teardown failed"), (self ready, 1%nat)) /\
  teardown ready
  = (Raise (err "base teardown failed"),
     {| world := 1%nat; environ := environ ready; self := self ready;
        trace := trace ready ++ [CallBaseTeardown] |}).
Proof.
  split; [vm_compute; reflexivity|].
  apply (teardown_base_failure ready (err "base teardown failed")
           (self ready) 1%nat).
  vm_compute. reflexivity.
Defined.
End BaseTeardownFails.
End MoreWitness.
